(** * Pricing-intelligence agents: a shallow embedding and its properties

    The development follows the Python sources of the multi-agent pricing
    engine: [agents/rules_agent.py], [agents/elasticity_agent.py],
    [agents/winrate_agent.py], [agents/orchestrator.py] and
    [api/model_service.py].

    Numbers.  Python and NumPy floats are taken as exact rationals ([Q],
    compared with [==]); [round(x, n)] is rounding to [n] decimals with
    ties to even.  Decimal literals such as [0.10] are the source's own.

    Exceptions.  Code that can raise returns in [Exc]; the boundary of
    [model_service] turns a raised exception into the error dictionary. *)

From Stdlib Require Import QArith Qround Qabs Qminmax Lqa ZArith Lia List String Bool.
From stdpp Require Import gmap strings.
Import ListNotations.
Local Open Scope Q_scope.

(** ** Python numerics *)

Module PyNum.

(** [round] of a number to an integer: nearest, ties to the even one. *)
Definition round_half_even (q : Q) : Z :=
  let f := Qfloor q in
  match Qcompare (q - inject_Z f) 0.5 with
  | Lt => f
  | Gt => (f + 1)%Z
  | Eq => if Z.even f then f else (f + 1)%Z
  end.

Definition pow10 (n : nat) : Q := inject_Z (10 ^ Z.of_nat n).

(** [round(q, n)] *)
Definition py_round (q : Q) (n : nat) : Q :=
  inject_Z (round_half_even (q * pow10 n)) / pow10 n.

(** Python's [a > b] on numbers, as a boolean. *)
Definition Qgtb (a b : Q) : bool := negb (Qle_bool a b).
Definition Qltb (a b : Q) : bool := Qgtb b a.
Definition Qgeb (a b : Q) : bool := Qle_bool b a.

(** [max(a, b)] and [min(a, b)] of two numbers: the first argument is kept
    unless the second is strictly beyond it. *)
Definition py_max2 (a b : Q) : Q := if Qgtb b a then b else a.
Definition py_min2 (a b : Q) : Q := if Qltb b a then b else a.

(** [abs] *)
Definition py_abs (a : Q) : Q := Qabs a.

End PyNum.
Import PyNum.

(** ** Exceptions *)

Inductive Exc (A : Type) : Type :=
| Ok (a : A)
| Raise (msg : string).
Arguments Ok {A} a.
Arguments Raise {A} msg.

#[global] Instance exc_ret : MRet Exc := fun _ a => Ok a.

#[global] Instance exc_bind : MBind Exc := fun _ _ k m =>
  match m with
  | Ok a => k a
  | Raise msg => Raise msg
  end.

(** A [for] loop that appends one result per element and stops at the
    first exception. *)
Fixpoint for_each {A B : Type} (body : A -> Exc B) (l : list A) : Exc (list B) :=
  match l with
  | [] => Ok []
  | x :: xs =>
      y ← body x;
      ys ← for_each body xs;
      Ok (y :: ys)
  end.

(** ** Built-ins and NumPy *)

(** [max(iterable, key=key)]: the first item is the running maximum and a
    later item replaces it only when its key is strictly greater; an empty
    iterable raises [ValueError]. *)
Definition max_step {A : Type} (key : A -> Q) (m c : A) : A :=
  if Qgtb (key c) (key m) then c else m.

Definition py_max_by {A : Type} (key : A -> Q) (l : list A) : Exc A :=
  match l with
  | [] => Raise "max() arg is an empty sequence"
  | x :: xs => Ok (fold_left (max_step key) xs x)
  end.

(** [np.linspace(start, stop, num)] with the default [endpoint=True]:
    [i * step + start] for [i < num - 1], then [stop] itself. *)
Definition linspace (start stop : Q) (num : nat) : list Q :=
  match num with
  | O => []
  | S O => [start]
  | S n =>
      let step := (stop - start) / inject_Z (Z.of_nat n) in
      map (fun i => inject_Z (Z.of_nat i) * step + start) (seq 0 n) ++ [stop]
  end.

(** The grid point of index [i], in closed form. *)
Definition grid_point (start stop : Q) (num i : nat) : Q :=
  start + inject_Z (Z.of_nat i) * ((stop - start) / inject_Z (Z.of_nat (num - 1))).

(** Order of a list of numbers, decided. *)
Fixpoint ascending (l : list Q) : bool :=
  match l with
  | [] => true
  | x :: xs =>
      match xs with
      | [] => true
      | y :: _ => Qle_bool x y && ascending xs
      end
  end.

Fixpoint strictly_ascending (l : list Q) : bool :=
  match l with
  | [] => true
  | x :: xs =>
      match xs with
      | [] => true
      | y :: _ => Qltb x y && strictly_ascending xs
      end
  end.

(** ** Values carried by the dictionaries *)

(** A float is a Python [float] or a NumPy [float64]; both are read at their
    rational value.  The two differ in one place the agents reach: dividing
    by zero raises [ZeroDivisionError] on Python floats and yields [nan] on
    NumPy ones. *)
Inductive num : Type :=
| Py (q : Q)
| Np (q : Q).

Definition num_val (x : num) : Q :=
  match x with
  | Py q => q
  | Np q => q
  end.

Definition is_np (x : num) : bool :=
  match x with
  | Py _ => false
  | Np _ => true
  end.

(** An f-string: its template and the values formatted into it. *)
Inductive Arg : Type :=
| ANum (q : Q)
| AStr (s : string).

Inductive Message : Type :=
| Msg (template : string) (args : list Arg).

(** ** The context dictionary

    One optional field per key the pipeline writes or reads; [None] is an
    absent key, so [context.get(k, d)] is [default d (k context)] and
    [context.copy()] is the context itself. *)

Module Ctx.

Record t : Type := mk {
  sku : option string;
  customer_id : option string;
  quantity : option Z;
  country : option string;
  channel : option string;
  currency : option string;
  product_id : option string;
  product_family : option string;
  cogs : option Q;
  customer_segment : option string;
  industry : option string;
  region : option string;
  competitor_price : option Q;
  floor_price : option Q;
  ceiling_price : option Q;
  min_margin_pct : option Q;
  approval_bands : option (list string);
  policy_source : option string;
  reasons : option (list Message);
  proposed_price : option num;
  target_price : option num;
  current_price : option Q;
  stretch_price : option Q;
  win_probability : option Q;
  price_elasticity : option Q;
  approval_band : option string;
  expected_margin : option Q
}.

(** The empty dictionary. *)
Definition empty : t :=
  {| sku := None;
     customer_id := None;
     quantity := None;
     country := None;
     channel := None;
     currency := None;
     product_id := None;
     product_family := None;
     cogs := None;
     customer_segment := None;
     industry := None;
     region := None;
     competitor_price := None;
     floor_price := None;
     ceiling_price := None;
     min_margin_pct := None;
     approval_bands := None;
     policy_source := None;
     reasons := None;
     proposed_price := None;
     target_price := None;
     current_price := None;
     stretch_price := None;
     win_probability := None;
     price_elasticity := None;
     approval_band := None;
     expected_margin := None |}.

(** [context['quantity'] = v] *)
Definition set_quantity (v : Z) (c : t) : t :=
  {| sku := sku c;
     customer_id := customer_id c;
     quantity := Some v;
     country := country c;
     channel := channel c;
     currency := currency c;
     product_id := product_id c;
     product_family := product_family c;
     cogs := cogs c;
     customer_segment := customer_segment c;
     industry := industry c;
     region := region c;
     competitor_price := competitor_price c;
     floor_price := floor_price c;
     ceiling_price := ceiling_price c;
     min_margin_pct := min_margin_pct c;
     approval_bands := approval_bands c;
     policy_source := policy_source c;
     reasons := reasons c;
     proposed_price := proposed_price c;
     target_price := target_price c;
     current_price := current_price c;
     stretch_price := stretch_price c;
     win_probability := win_probability c;
     price_elasticity := price_elasticity c;
     approval_band := approval_band c;
     expected_margin := expected_margin c |}.

(** [context['product_id'] = v] *)
Definition set_product_id (v : string) (c : t) : t :=
  {| sku := sku c;
     customer_id := customer_id c;
     quantity := quantity c;
     country := country c;
     channel := channel c;
     currency := currency c;
     product_id := Some v;
     product_family := product_family c;
     cogs := cogs c;
     customer_segment := customer_segment c;
     industry := industry c;
     region := region c;
     competitor_price := competitor_price c;
     floor_price := floor_price c;
     ceiling_price := ceiling_price c;
     min_margin_pct := min_margin_pct c;
     approval_bands := approval_bands c;
     policy_source := policy_source c;
     reasons := reasons c;
     proposed_price := proposed_price c;
     target_price := target_price c;
     current_price := current_price c;
     stretch_price := stretch_price c;
     win_probability := win_probability c;
     price_elasticity := price_elasticity c;
     approval_band := approval_band c;
     expected_margin := expected_margin c |}.

(** [context['product_family'] = v] *)
Definition set_product_family (v : string) (c : t) : t :=
  {| sku := sku c;
     customer_id := customer_id c;
     quantity := quantity c;
     country := country c;
     channel := channel c;
     currency := currency c;
     product_id := product_id c;
     product_family := Some v;
     cogs := cogs c;
     customer_segment := customer_segment c;
     industry := industry c;
     region := region c;
     competitor_price := competitor_price c;
     floor_price := floor_price c;
     ceiling_price := ceiling_price c;
     min_margin_pct := min_margin_pct c;
     approval_bands := approval_bands c;
     policy_source := policy_source c;
     reasons := reasons c;
     proposed_price := proposed_price c;
     target_price := target_price c;
     current_price := current_price c;
     stretch_price := stretch_price c;
     win_probability := win_probability c;
     price_elasticity := price_elasticity c;
     approval_band := approval_band c;
     expected_margin := expected_margin c |}.

(** [context['cogs'] = v] *)
Definition set_cogs (v : Q) (c : t) : t :=
  {| sku := sku c;
     customer_id := customer_id c;
     quantity := quantity c;
     country := country c;
     channel := channel c;
     currency := currency c;
     product_id := product_id c;
     product_family := product_family c;
     cogs := Some v;
     customer_segment := customer_segment c;
     industry := industry c;
     region := region c;
     competitor_price := competitor_price c;
     floor_price := floor_price c;
     ceiling_price := ceiling_price c;
     min_margin_pct := min_margin_pct c;
     approval_bands := approval_bands c;
     policy_source := policy_source c;
     reasons := reasons c;
     proposed_price := proposed_price c;
     target_price := target_price c;
     current_price := current_price c;
     stretch_price := stretch_price c;
     win_probability := win_probability c;
     price_elasticity := price_elasticity c;
     approval_band := approval_band c;
     expected_margin := expected_margin c |}.

(** [context['customer_segment'] = v] *)
Definition set_customer_segment (v : string) (c : t) : t :=
  {| sku := sku c;
     customer_id := customer_id c;
     quantity := quantity c;
     country := country c;
     channel := channel c;
     currency := currency c;
     product_id := product_id c;
     product_family := product_family c;
     cogs := cogs c;
     customer_segment := Some v;
     industry := industry c;
     region := region c;
     competitor_price := competitor_price c;
     floor_price := floor_price c;
     ceiling_price := ceiling_price c;
     min_margin_pct := min_margin_pct c;
     approval_bands := approval_bands c;
     policy_source := policy_source c;
     reasons := reasons c;
     proposed_price := proposed_price c;
     target_price := target_price c;
     current_price := current_price c;
     stretch_price := stretch_price c;
     win_probability := win_probability c;
     price_elasticity := price_elasticity c;
     approval_band := approval_band c;
     expected_margin := expected_margin c |}.

(** [context['industry'] = v] *)
Definition set_industry (v : string) (c : t) : t :=
  {| sku := sku c;
     customer_id := customer_id c;
     quantity := quantity c;
     country := country c;
     channel := channel c;
     currency := currency c;
     product_id := product_id c;
     product_family := product_family c;
     cogs := cogs c;
     customer_segment := customer_segment c;
     industry := Some v;
     region := region c;
     competitor_price := competitor_price c;
     floor_price := floor_price c;
     ceiling_price := ceiling_price c;
     min_margin_pct := min_margin_pct c;
     approval_bands := approval_bands c;
     policy_source := policy_source c;
     reasons := reasons c;
     proposed_price := proposed_price c;
     target_price := target_price c;
     current_price := current_price c;
     stretch_price := stretch_price c;
     win_probability := win_probability c;
     price_elasticity := price_elasticity c;
     approval_band := approval_band c;
     expected_margin := expected_margin c |}.

(** [context['region'] = v] *)
Definition set_region (v : string) (c : t) : t :=
  {| sku := sku c;
     customer_id := customer_id c;
     quantity := quantity c;
     country := country c;
     channel := channel c;
     currency := currency c;
     product_id := product_id c;
     product_family := product_family c;
     cogs := cogs c;
     customer_segment := customer_segment c;
     industry := industry c;
     region := Some v;
     competitor_price := competitor_price c;
     floor_price := floor_price c;
     ceiling_price := ceiling_price c;
     min_margin_pct := min_margin_pct c;
     approval_bands := approval_bands c;
     policy_source := policy_source c;
     reasons := reasons c;
     proposed_price := proposed_price c;
     target_price := target_price c;
     current_price := current_price c;
     stretch_price := stretch_price c;
     win_probability := win_probability c;
     price_elasticity := price_elasticity c;
     approval_band := approval_band c;
     expected_margin := expected_margin c |}.

(** [context['floor_price'] = v] *)
Definition set_floor_price (v : Q) (c : t) : t :=
  {| sku := sku c;
     customer_id := customer_id c;
     quantity := quantity c;
     country := country c;
     channel := channel c;
     currency := currency c;
     product_id := product_id c;
     product_family := product_family c;
     cogs := cogs c;
     customer_segment := customer_segment c;
     industry := industry c;
     region := region c;
     competitor_price := competitor_price c;
     floor_price := Some v;
     ceiling_price := ceiling_price c;
     min_margin_pct := min_margin_pct c;
     approval_bands := approval_bands c;
     policy_source := policy_source c;
     reasons := reasons c;
     proposed_price := proposed_price c;
     target_price := target_price c;
     current_price := current_price c;
     stretch_price := stretch_price c;
     win_probability := win_probability c;
     price_elasticity := price_elasticity c;
     approval_band := approval_band c;
     expected_margin := expected_margin c |}.

(** [context['proposed_price'] = v] *)
Definition set_proposed_price (v : num) (c : t) : t :=
  {| sku := sku c;
     customer_id := customer_id c;
     quantity := quantity c;
     country := country c;
     channel := channel c;
     currency := currency c;
     product_id := product_id c;
     product_family := product_family c;
     cogs := cogs c;
     customer_segment := customer_segment c;
     industry := industry c;
     region := region c;
     competitor_price := competitor_price c;
     floor_price := floor_price c;
     ceiling_price := ceiling_price c;
     min_margin_pct := min_margin_pct c;
     approval_bands := approval_bands c;
     policy_source := policy_source c;
     reasons := reasons c;
     proposed_price := Some v;
     target_price := target_price c;
     current_price := current_price c;
     stretch_price := stretch_price c;
     win_probability := win_probability c;
     price_elasticity := price_elasticity c;
     approval_band := approval_band c;
     expected_margin := expected_margin c |}.

(** [context['target_price'] = v] *)
Definition set_target_price (v : num) (c : t) : t :=
  {| sku := sku c;
     customer_id := customer_id c;
     quantity := quantity c;
     country := country c;
     channel := channel c;
     currency := currency c;
     product_id := product_id c;
     product_family := product_family c;
     cogs := cogs c;
     customer_segment := customer_segment c;
     industry := industry c;
     region := region c;
     competitor_price := competitor_price c;
     floor_price := floor_price c;
     ceiling_price := ceiling_price c;
     min_margin_pct := min_margin_pct c;
     approval_bands := approval_bands c;
     policy_source := policy_source c;
     reasons := reasons c;
     proposed_price := proposed_price c;
     target_price := Some v;
     current_price := current_price c;
     stretch_price := stretch_price c;
     win_probability := win_probability c;
     price_elasticity := price_elasticity c;
     approval_band := approval_band c;
     expected_margin := expected_margin c |}.

(** [context['current_price'] = v] *)
Definition set_current_price (v : Q) (c : t) : t :=
  {| sku := sku c;
     customer_id := customer_id c;
     quantity := quantity c;
     country := country c;
     channel := channel c;
     currency := currency c;
     product_id := product_id c;
     product_family := product_family c;
     cogs := cogs c;
     customer_segment := customer_segment c;
     industry := industry c;
     region := region c;
     competitor_price := competitor_price c;
     floor_price := floor_price c;
     ceiling_price := ceiling_price c;
     min_margin_pct := min_margin_pct c;
     approval_bands := approval_bands c;
     policy_source := policy_source c;
     reasons := reasons c;
     proposed_price := proposed_price c;
     target_price := target_price c;
     current_price := Some v;
     stretch_price := stretch_price c;
     win_probability := win_probability c;
     price_elasticity := price_elasticity c;
     approval_band := approval_band c;
     expected_margin := expected_margin c |}.

(** [context['stretch_price'] = v] *)
Definition set_stretch_price (v : Q) (c : t) : t :=
  {| sku := sku c;
     customer_id := customer_id c;
     quantity := quantity c;
     country := country c;
     channel := channel c;
     currency := currency c;
     product_id := product_id c;
     product_family := product_family c;
     cogs := cogs c;
     customer_segment := customer_segment c;
     industry := industry c;
     region := region c;
     competitor_price := competitor_price c;
     floor_price := floor_price c;
     ceiling_price := ceiling_price c;
     min_margin_pct := min_margin_pct c;
     approval_bands := approval_bands c;
     policy_source := policy_source c;
     reasons := reasons c;
     proposed_price := proposed_price c;
     target_price := target_price c;
     current_price := current_price c;
     stretch_price := Some v;
     win_probability := win_probability c;
     price_elasticity := price_elasticity c;
     approval_band := approval_band c;
     expected_margin := expected_margin c |}.

(** [context['win_probability'] = v] *)
Definition set_win_probability (v : Q) (c : t) : t :=
  {| sku := sku c;
     customer_id := customer_id c;
     quantity := quantity c;
     country := country c;
     channel := channel c;
     currency := currency c;
     product_id := product_id c;
     product_family := product_family c;
     cogs := cogs c;
     customer_segment := customer_segment c;
     industry := industry c;
     region := region c;
     competitor_price := competitor_price c;
     floor_price := floor_price c;
     ceiling_price := ceiling_price c;
     min_margin_pct := min_margin_pct c;
     approval_bands := approval_bands c;
     policy_source := policy_source c;
     reasons := reasons c;
     proposed_price := proposed_price c;
     target_price := target_price c;
     current_price := current_price c;
     stretch_price := stretch_price c;
     win_probability := Some v;
     price_elasticity := price_elasticity c;
     approval_band := approval_band c;
     expected_margin := expected_margin c |}.

(** [context['price_elasticity'] = v] *)
Definition set_price_elasticity (v : Q) (c : t) : t :=
  {| sku := sku c;
     customer_id := customer_id c;
     quantity := quantity c;
     country := country c;
     channel := channel c;
     currency := currency c;
     product_id := product_id c;
     product_family := product_family c;
     cogs := cogs c;
     customer_segment := customer_segment c;
     industry := industry c;
     region := region c;
     competitor_price := competitor_price c;
     floor_price := floor_price c;
     ceiling_price := ceiling_price c;
     min_margin_pct := min_margin_pct c;
     approval_bands := approval_bands c;
     policy_source := policy_source c;
     reasons := reasons c;
     proposed_price := proposed_price c;
     target_price := target_price c;
     current_price := current_price c;
     stretch_price := stretch_price c;
     win_probability := win_probability c;
     price_elasticity := Some v;
     approval_band := approval_band c;
     expected_margin := expected_margin c |}.

(** [context['approval_band'] = v] *)
Definition set_approval_band (v : string) (c : t) : t :=
  {| sku := sku c;
     customer_id := customer_id c;
     quantity := quantity c;
     country := country c;
     channel := channel c;
     currency := currency c;
     product_id := product_id c;
     product_family := product_family c;
     cogs := cogs c;
     customer_segment := customer_segment c;
     industry := industry c;
     region := region c;
     competitor_price := competitor_price c;
     floor_price := floor_price c;
     ceiling_price := ceiling_price c;
     min_margin_pct := min_margin_pct c;
     approval_bands := approval_bands c;
     policy_source := policy_source c;
     reasons := reasons c;
     proposed_price := proposed_price c;
     target_price := target_price c;
     current_price := current_price c;
     stretch_price := stretch_price c;
     win_probability := win_probability c;
     price_elasticity := price_elasticity c;
     approval_band := Some v;
     expected_margin := expected_margin c |}.

(** [context['expected_margin'] = v] *)
Definition set_expected_margin (v : Q) (c : t) : t :=
  {| sku := sku c;
     customer_id := customer_id c;
     quantity := quantity c;
     country := country c;
     channel := channel c;
     currency := currency c;
     product_id := product_id c;
     product_family := product_family c;
     cogs := cogs c;
     customer_segment := customer_segment c;
     industry := industry c;
     region := region c;
     competitor_price := competitor_price c;
     floor_price := floor_price c;
     ceiling_price := ceiling_price c;
     min_margin_pct := min_margin_pct c;
     approval_bands := approval_bands c;
     policy_source := policy_source c;
     reasons := reasons c;
     proposed_price := proposed_price c;
     target_price := target_price c;
     current_price := current_price c;
     stretch_price := stretch_price c;
     win_probability := win_probability c;
     price_elasticity := price_elasticity c;
     approval_band := approval_band c;
     expected_margin := Some v |}.

(** [context.setdefault('product_family', v)]: an existing value is kept. *)
Definition setdefault_product_family (v : string) (c : t) : t :=
  {| sku := sku c;
     customer_id := customer_id c;
     quantity := quantity c;
     country := country c;
     channel := channel c;
     currency := currency c;
     product_id := product_id c;
     product_family := Some (default v (product_family c));
     cogs := cogs c;
     customer_segment := customer_segment c;
     industry := industry c;
     region := region c;
     competitor_price := competitor_price c;
     floor_price := floor_price c;
     ceiling_price := ceiling_price c;
     min_margin_pct := min_margin_pct c;
     approval_bands := approval_bands c;
     policy_source := policy_source c;
     reasons := reasons c;
     proposed_price := proposed_price c;
     target_price := target_price c;
     current_price := current_price c;
     stretch_price := stretch_price c;
     win_probability := win_probability c;
     price_elasticity := price_elasticity c;
     approval_band := approval_band c;
     expected_margin := expected_margin c |}.

(** [context.setdefault('cogs', v)]: an existing value is kept. *)
Definition setdefault_cogs (v : Q) (c : t) : t :=
  {| sku := sku c;
     customer_id := customer_id c;
     quantity := quantity c;
     country := country c;
     channel := channel c;
     currency := currency c;
     product_id := product_id c;
     product_family := product_family c;
     cogs := Some (default v (cogs c));
     customer_segment := customer_segment c;
     industry := industry c;
     region := region c;
     competitor_price := competitor_price c;
     floor_price := floor_price c;
     ceiling_price := ceiling_price c;
     min_margin_pct := min_margin_pct c;
     approval_bands := approval_bands c;
     policy_source := policy_source c;
     reasons := reasons c;
     proposed_price := proposed_price c;
     target_price := target_price c;
     current_price := current_price c;
     stretch_price := stretch_price c;
     win_probability := win_probability c;
     price_elasticity := price_elasticity c;
     approval_band := approval_band c;
     expected_margin := expected_margin c |}.

(** [context.setdefault('customer_segment', v)]: an existing value is kept. *)
Definition setdefault_customer_segment (v : string) (c : t) : t :=
  {| sku := sku c;
     customer_id := customer_id c;
     quantity := quantity c;
     country := country c;
     channel := channel c;
     currency := currency c;
     product_id := product_id c;
     product_family := product_family c;
     cogs := cogs c;
     customer_segment := Some (default v (customer_segment c));
     industry := industry c;
     region := region c;
     competitor_price := competitor_price c;
     floor_price := floor_price c;
     ceiling_price := ceiling_price c;
     min_margin_pct := min_margin_pct c;
     approval_bands := approval_bands c;
     policy_source := policy_source c;
     reasons := reasons c;
     proposed_price := proposed_price c;
     target_price := target_price c;
     current_price := current_price c;
     stretch_price := stretch_price c;
     win_probability := win_probability c;
     price_elasticity := price_elasticity c;
     approval_band := approval_band c;
     expected_margin := expected_margin c |}.

(** [context.setdefault('region', v)]: an existing value is kept. *)
Definition setdefault_region (v : string) (c : t) : t :=
  {| sku := sku c;
     customer_id := customer_id c;
     quantity := quantity c;
     country := country c;
     channel := channel c;
     currency := currency c;
     product_id := product_id c;
     product_family := product_family c;
     cogs := cogs c;
     customer_segment := customer_segment c;
     industry := industry c;
     region := Some (default v (region c));
     competitor_price := competitor_price c;
     floor_price := floor_price c;
     ceiling_price := ceiling_price c;
     min_margin_pct := min_margin_pct c;
     approval_bands := approval_bands c;
     policy_source := policy_source c;
     reasons := reasons c;
     proposed_price := proposed_price c;
     target_price := target_price c;
     current_price := current_price c;
     stretch_price := stretch_price c;
     win_probability := win_probability c;
     price_elasticity := price_elasticity c;
     approval_band := approval_band c;
     expected_margin := expected_margin c |}.

(** [context.setdefault('competitor_price', v)]: an existing value is kept. *)
Definition setdefault_competitor_price (v : Q) (c : t) : t :=
  {| sku := sku c;
     customer_id := customer_id c;
     quantity := quantity c;
     country := country c;
     channel := channel c;
     currency := currency c;
     product_id := product_id c;
     product_family := product_family c;
     cogs := cogs c;
     customer_segment := customer_segment c;
     industry := industry c;
     region := region c;
     competitor_price := Some (default v (competitor_price c));
     floor_price := floor_price c;
     ceiling_price := ceiling_price c;
     min_margin_pct := min_margin_pct c;
     approval_bands := approval_bands c;
     policy_source := policy_source c;
     reasons := reasons c;
     proposed_price := proposed_price c;
     target_price := target_price c;
     current_price := current_price c;
     stretch_price := stretch_price c;
     win_probability := win_probability c;
     price_elasticity := price_elasticity c;
     approval_band := approval_band c;
     expected_margin := expected_margin c |}.

(** [context.update(rules_result)]: the six keys of the rules result. *)
Definition update_rules (v_floor_price : Q) (v_ceiling_price : Q) (v_min_margin_pct : Q) (v_approval_bands : (list string)) (v_policy_source : string) (v_reasons : (list Message)) (c : t) : t :=
  {| sku := sku c;
     customer_id := customer_id c;
     quantity := quantity c;
     country := country c;
     channel := channel c;
     currency := currency c;
     product_id := product_id c;
     product_family := product_family c;
     cogs := cogs c;
     customer_segment := customer_segment c;
     industry := industry c;
     region := region c;
     competitor_price := competitor_price c;
     floor_price := Some v_floor_price;
     ceiling_price := Some v_ceiling_price;
     min_margin_pct := Some v_min_margin_pct;
     approval_bands := Some v_approval_bands;
     policy_source := Some v_policy_source;
     reasons := Some v_reasons;
     proposed_price := proposed_price c;
     target_price := target_price c;
     current_price := current_price c;
     stretch_price := stretch_price c;
     win_probability := win_probability c;
     price_elasticity := price_elasticity c;
     approval_band := approval_band c;
     expected_margin := expected_margin c |}.

End Ctx.

Abbreviation Context := Ctx.t.

(** ** Reference tables

    The CSV tables are lists of rows in file order; [df[df[col] == v]]
    keeps the matching rows in that order and [.iloc[0]] is the first. *)

Module ProductRow.
Record t : Type := mk { sku : string; product_id : string; family : string }.
End ProductRow.

Module CustomerRow.
Record t : Type := mk {
  customer_id : string; segment : string; industry : string; region : string
}.
End CustomerRow.

Module CogsRow.
Record t : Type := mk { product_id : string; cogs : Q }.
End CogsRow.

(** A row of the policy table.  [approval_bands_json] is the outcome of
    [json.loads(policy['approval_bands_json'])['bands']]: the list, or
    [None] when that expression raises. *)
Module PolicyRow.
Record t : Type := mk {
  region : string;
  family : string;
  min_margin_pct : Q;
  ceiling_pct : Q;
  approval_bands_json : option (list string)
}.
End PolicyRow.

(** ** [agents/rules_agent.py] *)

Module RulesAgent.

Record t : Type := mk { policy_df : list PolicyRow.t }.

Record Result : Type := mkResult {
  floor_price : Q;
  ceiling_price : Q;
  min_margin_pct : Q;
  approval_bands : list string;
  policy_source : string;
  reasons : list Message
}.

(** The policy in force: the first matching row, else the fallback. *)
Record Policy : Type := mkPolicy {
  p_min_margin_pct : Q;
  p_ceiling_pct : Q;
  p_approval_bands : list string
}.

Definition find_policy (self : t) (context : Context) : Policy :=
  let region := default "EMEA"%string (Ctx.region context) in
  let product_family := default "Widgets"%string (Ctx.product_family context) in
  let policy_row :=
    filter (fun r => String.eqb (PolicyRow.region r) region
                     && String.eqb (PolicyRow.family r) product_family)
           (policy_df self) in
  match policy_row with
  | [] =>
      {| p_min_margin_pct := 0.10;
         p_ceiling_pct := 2.0;
         p_approval_bands := ["APPROVED"; "REVIEW"; "REJECT"]%string |}
  | policy :: _ =>
      {| p_min_margin_pct := PolicyRow.min_margin_pct policy;
         p_ceiling_pct := PolicyRow.ceiling_pct policy;
         p_approval_bands :=
           match PolicyRow.approval_bands_json policy with
           | Some bands => bands
           | None => ["APPROVED"; "REVIEW"; "REJECT"]%string
           end |}
  end.

Definition execute (self : t) (context : Context) : Result :=
  let region := default "EMEA"%string (Ctx.region context) in
  let product_family := default "Widgets"%string (Ctx.product_family context) in
  let cogs := default 100.0 (Ctx.cogs context) in
  let policy := find_policy self context in
  let min_margin_pct := p_min_margin_pct policy in
  let ceiling_pct := p_ceiling_pct policy in
  let approval_bands := p_approval_bands policy in
  let floor_price := cogs * (1 + min_margin_pct) in
  let ceiling_price := cogs * ceiling_pct in
  {| floor_price := py_round floor_price 2;
     ceiling_price := py_round ceiling_price 2;
     min_margin_pct := min_margin_pct;
     approval_bands := approval_bands;
     policy_source := (region ++ "-" ++ product_family)%string;
     reasons := [Msg "Policy floor: {:.1f}% margin" [ANum (min_margin_pct * 100)];
                 Msg "Policy ceiling: {}x COGS" [ANum ceiling_pct]] |}.

(** The margin the band is decided on. *)
Definition margin_pct (proposed_price cogs : Q) : Q :=
  if Qgtb cogs 0 then (proposed_price - cogs) / cogs else 0.

Definition get_approval_band (self : t) (proposed_price cogs : Q)
    (context : Context) : string :=
  let rules_result := execute self context in
  let margin_pct := margin_pct proposed_price cogs in
  if Qgeb margin_pct (min_margin_pct rules_result) then
    if Qle_bool proposed_price (ceiling_price rules_result) then "APPROVED"
    else "REVIEW"
  else "REJECT".

End RulesAgent.

(** [context.update(rules_result)] *)
Definition update_rules (r : RulesAgent.Result) (c : Context) : Context :=
  Ctx.update_rules (RulesAgent.floor_price r) (RulesAgent.ceiling_price r)
    (RulesAgent.min_margin_pct r) (RulesAgent.approval_bands r)
    (RulesAgent.policy_source r) (RulesAgent.reasons r) c.

(** ** [agents/elasticity_agent.py] *)

Module ElasticityAgent.

Record Params : Type := mkParams { base_elasticity : Q; volume_adj : Q }.

Definition elasticity_params : gmap (string * string) Params :=
  {[ ("Enterprise", "EMEA")%string := mkParams (-1.2) 0.1;
     ("Enterprise", "Americas")%string := mkParams (-1.1) 0.12;
     ("SMB", "EMEA")%string := mkParams (-1.8) 0.05;
     ("SMB", "Americas")%string := mkParams (-1.7) 0.08 ]}.

Definition params_of (context : Context) : Params :=
  let segment := default "Enterprise"%string (Ctx.customer_segment context) in
  let region := default "EMEA"%string (Ctx.region context) in
  match elasticity_params !! (segment, region) with
  | Some params => params
  | None => mkParams (-1.5) 0.08
  end.

(** The local variables of [execute], before the result rounds them. *)
Record Vars : Type := mkVars {
  current_price : Q;
  proposed_price : Q;
  volume_factor : Q;
  adjusted_elasticity : Q;
  price_change_pct : Q;
  demand_change_pct : Q;
  new_quantity : Q;
  revenue_change_pct : Q;
  suggested_price : Q
}.

Definition vars (context : Context) : Vars :=
  let current_price :=
    default (default 100 (num_val <$> Ctx.target_price context))
            (Ctx.current_price context) in
  let proposed_price :=
    default current_price (num_val <$> Ctx.proposed_price context) in
  let quantity := inject_Z (default 10%Z (Ctx.quantity context)) in
  let params := params_of context in
  let base_elasticity := base_elasticity params in
  let volume_adj := volume_adj params in
  let volume_factor := py_min2 1.0 (quantity / 20.0) in
  let adjusted_elasticity := base_elasticity * (1 - volume_factor * volume_adj) in
  let price_change_pct :=
    if Qgtb current_price 0 then (proposed_price - current_price) / current_price
    else 0 in
  let demand_change_pct := adjusted_elasticity * price_change_pct in
  let new_quantity := quantity * (1 + demand_change_pct) in
  let new_quantity := py_max2 1 new_quantity in
  let current_revenue := current_price * quantity in
  let new_revenue := proposed_price * new_quantity in
  let revenue_change_pct :=
    if Qgtb current_revenue 0 then (new_revenue - current_revenue) / current_revenue
    else 0 in
  let cogs := default (current_price * 0.7) (Ctx.cogs context) in
  let suggested_price :=
    if Qltb adjusted_elasticity (-1) then
      let optimal_markup := -1 / (adjusted_elasticity + 1) in
      cogs / (1 - optimal_markup)
    else current_price in
  {| current_price := current_price;
     proposed_price := proposed_price;
     volume_factor := volume_factor;
     adjusted_elasticity := adjusted_elasticity;
     price_change_pct := price_change_pct;
     demand_change_pct := demand_change_pct;
     new_quantity := new_quantity;
     revenue_change_pct := revenue_change_pct;
     suggested_price := suggested_price |}.

Record Result : Type := mkResult {
  r_price_elasticity : Q;
  r_demand_change_pct : Q;
  r_new_quantity_estimate : Q;
  r_revenue_change_pct : Q;
  r_suggested_price : Q;
  r_elasticity_segment : string;
  r_reasons : list Message
}.

Definition execute (context : Context) : Result :=
  let segment := default "Enterprise"%string (Ctx.customer_segment context) in
  let region := default "EMEA"%string (Ctx.region context) in
  let v := vars context in
  {| r_price_elasticity := py_round (adjusted_elasticity v) 2;
     r_demand_change_pct := py_round (demand_change_pct v) 3;
     r_new_quantity_estimate := py_round (new_quantity v) 1;
     r_revenue_change_pct := py_round (revenue_change_pct v) 3;
     r_suggested_price := py_round (suggested_price v) 2;
     r_elasticity_segment := (segment ++ "-" ++ region)%string;
     r_reasons := [Msg "Price elasticity: {:.2f}" [ANum (adjusted_elasticity v)];
                   Msg "Demand impact: {:+.1%}" [ANum (demand_change_pct v)];
                   Msg "Revenue impact: {:+.1%}" [ANum (revenue_change_pct v)]] |}.

End ElasticityAgent.

(** ** [agents/winrate_agent.py] *)

Module WinRateAgent.

(** The trained classifier: [predict_proba] on one feature row gives the
    two class probabilities or raises; [feature_importances_] is fixed at
    training time. *)
Record Model : Type := mkModel {
  predict_proba : list Q -> Exc (Q * Q);
  feature_importances_ : list Q
}.

(** The agent: its model and, per categorical column, the label encoder
    as the map from a seen label to its code. *)
Record t : Type := mk {
  model : Model;
  encoders : gmap string (gmap string Z)
}.

Definition feature_cols : list string :=
  ["margin_pct"; "discount_depth"; "price_vs_competitor"; "quantity";
   "segment"; "channel"; "region"; "family"; "volume_tier"; "price_position"]%string.

(** [self.encoders[col].transform([value])[0]], with the two fallbacks to
    code [0]: no encoder for the column, or a label the encoder never saw. *)
Definition encode (self : t) (col value : string) : Z :=
  match encoders self !! col with
  | Some le =>
      match le !! value with
      | Some code => code
      | None => 0%Z
      end
  | None => 0%Z
  end.

(** [sorted(items, key=lambda x: x[1], reverse=True)]: stable, descending. *)
Fixpoint insert_desc (x : string * Q) (l : list (string * Q)) : list (string * Q) :=
  match l with
  | [] => [x]
  | y :: ys => if Qgtb (snd x) (snd y) then x :: y :: ys else y :: insert_desc x ys
  end.

Definition sorted_desc (l : list (string * Q)) : list (string * Q) :=
  fold_left (fun acc x => insert_desc x acc) l [].

(** The discount depth [max(0, (list_price - p) / list_price)] with
    [list_price = p * 1.2]: no caller puts a ['list_price'] key in the
    context.  At [list_price = 0] a Python float raises; a NumPy float
    gives [nan], which [max(0, nan)] drops in favour of [0]. *)
Definition discount_depth (proposed_price : num) : Exc Q :=
  let p := num_val proposed_price in
  let list_price := p * 1.2 in
  if Qeq_bool list_price 0 then
    if is_np proposed_price then Ok 0
    else Raise "float division by zero"
  else Ok (py_max2 0 ((list_price - p) / list_price)).

Record Result : Type := mkResult {
  win_probability : Q;
  confidence : string;
  key_factors : list Message;
  model_features : list Q;
  reasons : list Message
}.

Definition execute (self : t) (context : Context) : Exc Result :=
  let proposed_price :=
    default (default (Py 100) (Ctx.target_price context))
            (Ctx.proposed_price context) in
  let p := num_val proposed_price in
  let competitor_price := default (p * 1.05) (Ctx.competitor_price context) in
  let cogs := default 80 (Ctx.cogs context) in
  let quantity := default 10%Z (Ctx.quantity context) in
  let segment := default "Enterprise"%string (Ctx.customer_segment context) in
  let channel := default "Direct"%string (Ctx.channel context) in
  let region := default "EMEA"%string (Ctx.region context) in
  let product_family := default "Widgets"%string (Ctx.product_family context) in
  let margin_pct := if Qgtb cogs 0 then (p - cogs) / cogs else 0 in
  discount_depth ← discount_depth proposed_price;
  let price_vs_competitor :=
    if Qgtb competitor_price 0 then p / competitor_price else 1.0 in
  let volume_tier :=
    if (quantity <=? 5)%Z then "Small"%string
    else if (quantity <=? 15)%Z then "Medium"%string
    else if (quantity <=? 30)%Z then "Large"%string
    else "XLarge"%string in
  let price_position :=
    if Qltb price_vs_competitor 0.9 then "Below"%string
    else if Qle_bool price_vs_competitor 1.1 then "Match"%string
    else "Above"%string in
  let X :=
    [margin_pct; discount_depth; price_vs_competitor; inject_Z quantity;
     inject_Z (encode self "segment" segment);
     inject_Z (encode self "channel" channel);
     inject_Z (encode self "region" region);
     inject_Z (encode self "family" product_family);
     inject_Z (encode self "volume_tier" volume_tier);
     inject_Z (encode self "price_position" price_position)] in
  proba ← predict_proba (model self) X;
  let win_probability := snd proba in
  let top_features :=
    take 3 (sorted_desc (zip feature_cols (feature_importances_ (model self)))) in
  top ← match top_features with
        | [] => Raise "list index out of range"
        | f :: _ => Ok (fst f)
        end;
  Ok {| win_probability := py_round win_probability 3;
        confidence :=
          if Qgtb (py_max2 (fst proba) (snd proba)) 0.7 then "High" else "Medium";
        key_factors :=
          map (fun f => Msg "{}: {:.3f}" [AStr (fst f); ANum (snd f)]) top_features;
        model_features := X;
        reasons := [Msg "ML model prediction: {:.1%}" [ANum win_probability];
                    Msg "Key factor: {}" [AStr top];
                    Msg "Price vs competitor: {:.2f}" [ANum price_vs_competitor]] |}.

Record CurvePoint : Type := mkPoint { price : Q; p_win : Q }.

Definition get_win_curve (self : t) (context : Context) (price_range : list Q)
    : Exc (list CurvePoint) :=
  for_each
    (fun price =>
       let price_context := Ctx.set_proposed_price (Np price) context in
       result ← execute self price_context;
       Ok {| price := py_round price 2; p_win := win_probability result |})
    price_range.

End WinRateAgent.

(** ** [agents/explainer_agent.py]

    The explainer assembles text from the final context; the pipeline only
    passes its output on, so the agent is its [execute] function. *)

Module ExplainerAgent.

Record Result : Type := mkResult {
  explanation : string;
  recommendations : list string;
  key_insights : list Message;
  reasons : list string
}.

Record t : Type := mk { execute : Context -> Result }.

End ExplainerAgent.

(** ** [agents/orchestrator.py] *)

Module Orchestrator.

Record t : Type := mk {
  rules_agent : RulesAgent.t;
  winrate_agent : WinRateAgent.t;
  explainer_agent : ExplainerAgent.t;
  products_df : list ProductRow.t;
  customers_df : list CustomerRow.t;
  cogs_df : list CogsRow.t
}.

(** The arguments shared by the three operations. *)
Record Request : Type := mkRequest {
  sku : string;
  customer_id : string;
  quantity : Z;
  country : string;
  channel : string;
  currency : string
}.

(** [context['cogs']] *)
Definition getitem_cogs (context : Context) : Exc Q :=
  match Ctx.cogs context with
  | Some v => Ok v
  | None => Raise "'cogs'"
  end.

(** The rows the enrichment reads: the first product with the sku, the
    first cost row of that product, the first customer with the id. *)
Definition product_row (self : t) (req : Request) : option ProductRow.t :=
  head (filter (fun r => String.eqb (ProductRow.sku r) (sku req)) (products_df self)).

Definition cogs_row (self : t) (product_id : string) : option CogsRow.t :=
  head (filter (fun r => String.eqb (CogsRow.product_id r) product_id) (cogs_df self)).

Definition customer_row (self : t) (req : Request) : option CustomerRow.t :=
  head (filter (fun r => String.eqb (CustomerRow.customer_id r) (customer_id req))
               (customers_df self)).

Definition _enrich_context (self : t) (req : Request) : Exc Context :=
  let context :=
    {| Ctx.sku := Some (sku req);
       Ctx.customer_id := Some (customer_id req);
       Ctx.quantity := Some (quantity req);
       Ctx.country := Some (country req);
       Ctx.channel := Some (channel req);
       Ctx.currency := Some (currency req);
       Ctx.product_id := None; Ctx.product_family := None; Ctx.cogs := None;
       Ctx.customer_segment := None; Ctx.industry := None; Ctx.region := None;
       Ctx.competitor_price := None;
       Ctx.floor_price := None; Ctx.ceiling_price := None;
       Ctx.min_margin_pct := None; Ctx.approval_bands := None;
       Ctx.policy_source := None; Ctx.reasons := None;
       Ctx.proposed_price := None; Ctx.target_price := None;
       Ctx.current_price := None; Ctx.stretch_price := None;
       Ctx.win_probability := None; Ctx.price_elasticity := None;
       Ctx.approval_band := None; Ctx.expected_margin := None |} in
  (* Add product data *)
  let context :=
    match product_row self req with
    | Some row =>
        let context := Ctx.set_product_id (ProductRow.product_id row) context in
        let context := Ctx.set_product_family (ProductRow.family row) context in
        (* Add COGS *)
        match cogs_row self (ProductRow.product_id row) with
        | Some crow => Ctx.set_cogs (CogsRow.cogs crow) context
        | None => context
        end
    | None => context
    end in
  (* Add customer data *)
  let context :=
    match customer_row self req with
    | Some row =>
        let context := Ctx.set_customer_segment (CustomerRow.segment row) context in
        let context := Ctx.set_industry (CustomerRow.industry row) context in
        Ctx.set_region (CustomerRow.region row) context
    | None => context
    end in
  (* Set defaults if not found *)
  let context := Ctx.setdefault_product_family "Widgets" context in
  let context := Ctx.setdefault_cogs 80.0 context in
  let context := Ctx.setdefault_customer_segment "Enterprise" context in
  let context := Ctx.setdefault_region "EMEA" context in
  cogs ← getitem_cogs context;
  Ok (Ctx.setdefault_competitor_price (cogs * 1.3) context).

Record Candidate : Type := mkCandidate {
  price : Q;
  expected_margin : Q;
  win_probability : Q;
  margin : Q;
  elasticity_score : Q
}.

(** The context of one candidate: a copy of the context with the price
    as proposed and as target price. *)
Definition candidate_context (context : Context) (price : Q) : Context :=
  let candidate_context := context in
  let candidate_context := Ctx.set_proposed_price (Np price) candidate_context in
  Ctx.set_target_price (Np price) candidate_context.

(** The body of the loop over [price_candidates]. *)
Definition score_candidate (self : t) (context : Context) (price : Q)
    : Exc Candidate :=
  let candidate_context := candidate_context context price in
  winrate_result ← WinRateAgent.execute (winrate_agent self) candidate_context;
  let elasticity_result := ElasticityAgent.execute candidate_context in
  cogs ← getitem_cogs context;
  let margin := price - cogs in
  let win_prob := WinRateAgent.win_probability winrate_result in
  let expected_margin := margin * win_prob in
  Ok {| price := price;
        expected_margin := expected_margin;
        win_probability := win_prob;
        margin := margin;
        elasticity_score := ElasticityAgent.r_revenue_change_pct elasticity_result |}.

(** Steps 1 to 5 of [recommend_price]: the local variables the final
    result is compiled from. *)
Record Selection : Type := mkSelection {
  s_context : Context;
  s_rules_result : RulesAgent.Result;
  s_price_candidates : list Q;
  s_candidate_scores : list Candidate;
  s_target_candidate : Candidate;
  s_stretch_price : Q
}.

Definition select_prices (self : t) (req : Request) : Exc Selection :=
  (* Step 1: Enrich context *)
  context ← _enrich_context self req;
  (* Step 2: Get policy bounds from Rules Agent *)
  let rules_result := RulesAgent.execute (rules_agent self) context in
  let context := update_rules rules_result context in
  (* Step 3: Generate price candidates *)
  let floor_price := RulesAgent.floor_price rules_result in
  let ceiling_price := RulesAgent.ceiling_price rules_result in
  let price_candidates := linspace floor_price ceiling_price 20 in
  (* Step 4: Evaluate each price *)
  candidate_scores ← for_each (score_candidate self context) price_candidates;
  (* Step 5: Select optimal prices *)
  target_candidate ← py_max_by expected_margin candidate_scores;
  let viable_candidates :=
    filter (fun c => Qgtb (win_probability c) 0.2) candidate_scores in
  stretch_price ←
    match viable_candidates with
    | [] => Ok ceiling_price
    | _ => c ← py_max_by price viable_candidates; Ok (price c)
    end;
  Ok {| s_context := context;
        s_rules_result := rules_result;
        s_price_candidates := price_candidates;
        s_candidate_scores := candidate_scores;
        s_target_candidate := target_candidate;
        s_stretch_price := stretch_price |}.

(** ['APPROVED' in str(bands)] *)
Definition approved_in_str (bands : list string) : bool :=
  existsb (fun b => match index 0 "APPROVED" b with Some _ => true | None => false end)
          bands.

Definition _calculate_confidence (winrate_result : WinRateAgent.Result)
    (elasticity_result : ElasticityAgent.Result)
    (rules_result : RulesAgent.Result) : string :=
  let f1 :=
    if Qgtb (WinRateAgent.win_probability winrate_result) 0.6 then 1
    else if Qgtb (WinRateAgent.win_probability winrate_result) 0.4 then 0.7
    else 0.3 in
  let elasticity := py_abs (ElasticityAgent.r_price_elasticity elasticity_result) in
  let f2 := if Qltb elasticity 2.0 then 0.9 else 0.5 in
  let f3 :=
    if approved_in_str (RulesAgent.approval_bands rules_result) then 1.0 else 0.6 in
  let confidence_factors := [f1; f2; f3] in
  let avg_confidence :=
    fold_left Qplus confidence_factors 0
    / inject_Z (Z.of_nat (length confidence_factors)) in
  if Qgtb avg_confidence 0.8 then "High"
  else if Qgtb avg_confidence 0.6 then "Medium"
  else "Low".

Record Insights : Type := mkInsights {
  i_rules : list Message;
  i_winrate : list Message;
  i_elasticity : list Message;
  i_explanation : list Message
}.

Record Recommendation : Type := mkRecommendation {
  floor : Q;
  target : Q;
  stretch : Q;
  p_win_at_target : Q;
  reasons : list Message;
  agent_insights : Insights;
  confidence_score : string
}.

(** Step 6: the context the agents see at the target price. *)
Definition final_context (sel : Selection) : Context :=
  let target_price := price (s_target_candidate sel) in
  Ctx.set_stretch_price (s_stretch_price sel)
    (Ctx.set_floor_price (RulesAgent.floor_price (s_rules_result sel))
       (Ctx.set_proposed_price (Np target_price)
          (Ctx.set_target_price (Np target_price) (s_context sel)))).

Definition recommend_price (self : t) (req : Request) : Exc Recommendation :=
  sel ← select_prices self req;
  let context := s_context sel in
  let rules_result := s_rules_result sel in
  let floor_price := RulesAgent.floor_price rules_result in
  let target_candidate := s_target_candidate sel in
  let target_price := price target_candidate in
  let stretch_price := s_stretch_price sel in
  (* Step 6: Get final metrics for target price *)
  let final_context := final_context sel in
  final_winrate ← WinRateAgent.execute (winrate_agent self) final_context;
  let final_elasticity := ElasticityAgent.execute final_context in
  (* Step 7: Generate explanation *)
  cogs ← getitem_cogs context;
  let approval_band :=
    RulesAgent.get_approval_band (rules_agent self) target_price cogs context in
  let explanation_context :=
    Ctx.set_approval_band approval_band
      (Ctx.set_price_elasticity (ElasticityAgent.r_price_elasticity final_elasticity)
         (Ctx.set_win_probability (WinRateAgent.win_probability final_winrate)
            final_context)) in
  let explanation_result :=
    ExplainerAgent.execute (explainer_agent self) explanation_context in
  (* Step 8: Compile final recommendation *)
  Ok {| floor := py_round floor_price 2;
        target := py_round target_price 2;
        stretch := py_round stretch_price 2;
        p_win_at_target := WinRateAgent.win_probability final_winrate;
        reasons :=
          [Msg "{}" [AStr (ExplainerAgent.explanation explanation_result)];
           Msg "Expected margin optimization: ${:.2f}"
               [ANum (expected_margin target_candidate)];
           Msg "Policy compliance: {}" [AStr approval_band]];
        agent_insights :=
          {| i_rules := RulesAgent.reasons rules_result;
             i_winrate := WinRateAgent.reasons final_winrate;
             i_elasticity := ElasticityAgent.r_reasons final_elasticity;
             i_explanation := ExplainerAgent.key_insights explanation_result |};
        confidence_score :=
          _calculate_confidence final_winrate final_elasticity rules_result |}.

Record ScoreInsights : Type := mkScoreInsights {
  si_rules : list Message;
  si_winrate : list Message;
  si_elasticity : list Message
}.

Record ScoreResult : Type := mkScoreResult {
  p_win : Q;
  sr_expected_margin : Q;
  sr_approval_band : string;
  sr_reasons : list Message;
  sr_agent_insights : ScoreInsights
}.

(** The context [score_price] hands to the three agents. *)
Definition score_context (self : t) (req : Request) (proposed_price : Q)
    : Exc Context :=
  context ← _enrich_context self req;
  Ok (Ctx.set_proposed_price (Py proposed_price) context).

Definition score_price (self : t) (req : Request) (proposed_price : Q)
    : Exc ScoreResult :=
  context ← score_context self req proposed_price;
  let rules_result := RulesAgent.execute (rules_agent self) context in
  winrate_result ← WinRateAgent.execute (winrate_agent self) context;
  let elasticity_result := ElasticityAgent.execute context in
  cogs ← getitem_cogs context;
  let expected_margin :=
    (proposed_price - cogs) * WinRateAgent.win_probability winrate_result in
  let approval_band :=
    RulesAgent.get_approval_band (rules_agent self) proposed_price cogs context in
  let explanation_context :=
    Ctx.set_expected_margin expected_margin
      (Ctx.set_approval_band approval_band
         (Ctx.set_price_elasticity (ElasticityAgent.r_price_elasticity elasticity_result)
            (Ctx.set_win_probability (WinRateAgent.win_probability winrate_result)
               context))) in
  let explanation_result :=
    ExplainerAgent.execute (explainer_agent self) explanation_context in
  Ok {| p_win := WinRateAgent.win_probability winrate_result;
        sr_expected_margin := py_round expected_margin 2;
        sr_approval_band := approval_band;
        sr_reasons :=
          [Msg "{}" [AStr (ExplainerAgent.explanation explanation_result)];
           Msg "ML win probability: {:.0%}"
               [ANum (WinRateAgent.win_probability winrate_result)];
           Msg "Elasticity impact: {:+.1%}"
               [ANum (ElasticityAgent.r_demand_change_pct elasticity_result)]];
        sr_agent_insights :=
          {| si_rules := RulesAgent.reasons rules_result;
             si_winrate := WinRateAgent.reasons winrate_result;
             si_elasticity := ElasticityAgent.r_reasons elasticity_result |} |}.

(** The price range of the curve. *)
Definition curve_price_range (self : t) (context : Context) : list Q :=
  let rules_result := RulesAgent.execute (rules_agent self) context in
  let floor_price := RulesAgent.floor_price rules_result in
  let ceiling_price := RulesAgent.ceiling_price rules_result in
  linspace floor_price ceiling_price 15.

Definition get_win_curve (self : t) (req : Request)
    : Exc (list WinRateAgent.CurvePoint) :=
  context ← _enrich_context self req;
  let price_range := curve_price_range self context in
  WinRateAgent.get_win_curve (winrate_agent self) context price_range.

End Orchestrator.

(** ** [api/model_service.py]: the boundary that catches exceptions *)

Module ModelService.

(** What [recommend] and [score] return: the result dictionary, or the
    dictionary whose only key is ["error"]. *)
Inductive Response (A : Type) : Type :=
| Result (r : A)
| Error (error : string).
Arguments Result {A} r.
Arguments Error {A} error.

(** [try: return f() except Exception as e: return {"error": str(e)}] *)
Definition try_except {A : Type} (body : Exc A) : Response A :=
  match body with
  | Ok result => Result result
  | Raise e => Error e
  end.

Definition recommend (orchestrator : Orchestrator.t) (req : Orchestrator.Request)
    : Response Orchestrator.Recommendation :=
  try_except (Orchestrator.recommend_price orchestrator req).

Definition score (orchestrator : Orchestrator.t) (req : Orchestrator.Request)
    (proposed_price : Q) : Response Orchestrator.ScoreResult :=
  try_except (Orchestrator.score_price orchestrator req proposed_price).

(** [curve] returns the empty list on an exception. *)
Definition curve (orchestrator : Orchestrator.t) (req : Orchestrator.Request)
    : list WinRateAgent.CurvePoint :=
  match Orchestrator.get_win_curve orchestrator req with
  | Ok result => result
  | Raise _ => []
  end.

End ModelService.

(** ** The statements of the specification

    What the specification says in its own words, for comparison with the
    code above. *)

Module Spec.

(** "REJECT if margin_pct < min_margin_pct; else APPROVED if price <=
    ceiling_price; else REVIEW", with margin_pct = (price - cogs) / cogs. *)
Definition approval_band (price cogs min_margin_pct ceiling_price : Q) : string :=
  let margin_pct := (price - cogs) / cogs in
  if Qltb margin_pct min_margin_pct then "REJECT"
  else if Qle_bool price ceiling_price then "APPROVED"
  else "REVIEW".

(** "adjusted_elasticity = base_elasticity * (1 - min(1, quantity/20) * volume_adj)" *)
Definition adjusted_elasticity (base_elasticity volume_adj quantity : Q) : Q :=
  base_elasticity * (1 - Qmin 1 (quantity / 20) * volume_adj).

(** "price_change_pct = (proposed - current)/current (0 if current <= 0)" *)
Definition price_change_pct (current proposed : Q) : Q :=
  if Qle_bool current 0 then 0 else (proposed - current) / current.

(** "new_quantity = max(1, quantity * (1 + demand_change_pct))" *)
Definition new_quantity (quantity demand_change_pct : Q) : Q :=
  Qmax 1 (quantity * (1 + demand_change_pct)).

(** [m] is the first item of [l], in list order, whose key is maximal. *)
Definition first_max {A : Type} (key : A -> Q) (l : list A) (m : A) : Prop :=
  exists i : nat,
    l !! i = Some m
    /\ (forall c, c ∈ l -> key c <= key m)
    /\ (forall (j : nat) c, (j < i)%nat -> l !! j = Some c -> key c < key m).

(** No row of the policy table matches the context's (region, family). *)
Definition no_policy_row (self : RulesAgent.t) (context : Context) : Prop :=
  forall r, r ∈ RulesAgent.policy_df self ->
    ~ (PolicyRow.region r = default "EMEA"%string (Ctx.region context)
       /\ PolicyRow.family r = default "Widgets"%string (Ctx.product_family context)).

(** The classifier predicts on every feature row and has importances to
    report. *)
Definition usable (m : WinRateAgent.Model) : Prop :=
  (forall X, exists proba, WinRateAgent.predict_proba m X = Ok proba)
  /\ WinRateAgent.feature_importances_ m <> [].

(** The values the enrichment is to end with: the looked-up one when the
    lookup finds a row, the documented default otherwise. *)
Definition enriched_product_family (self : Orchestrator.t) (req : Orchestrator.Request) : string :=
  match Orchestrator.product_row self req with
  | Some row => ProductRow.family row
  | None => "Widgets"
  end.

Definition enriched_cogs (self : Orchestrator.t) (req : Orchestrator.Request) : Q :=
  match Orchestrator.product_row self req with
  | Some row =>
      match Orchestrator.cogs_row self (ProductRow.product_id row) with
      | Some crow => CogsRow.cogs crow
      | None => 80.0
      end
  | None => 80.0
  end.

Definition enriched_customer_segment (self : Orchestrator.t) (req : Orchestrator.Request) : string :=
  match Orchestrator.customer_row self req with
  | Some row => CustomerRow.segment row
  | None => "Enterprise"
  end.

Definition enriched_region (self : Orchestrator.t) (req : Orchestrator.Request) : string :=
  match Orchestrator.customer_row self req with
  | Some row => CustomerRow.region row
  | None => "EMEA"
  end.

(** Two contexts carry the same five enriched values. *)
Definition same_enrichment (c c' : Context) : Prop :=
  Ctx.product_family c' = Ctx.product_family c
  /\ Ctx.cogs c' = Ctx.cogs c
  /\ Ctx.customer_segment c' = Ctx.customer_segment c
  /\ Ctx.region c' = Ctx.region c
  /\ Ctx.competitor_price c' = Ctx.competitor_price c.

End Spec.

(** ** Sample data

    A small orchestrator in the shape of the repository's sample tables:
    a classifier whose win probability falls linearly with the margin,
    three products, one customer and no policy row. *)

Module Demo.

Definition model : WinRateAgent.Model :=
  {| WinRateAgent.predict_proba := fun X =>
       match X with
       | margin_pct :: _ =>
           let p := py_max2 0 (py_min2 1 (1 - margin_pct)) in
           Ok (1 - p, p)
       | [] => Raise "empty feature row"
       end;
     WinRateAgent.feature_importances_ :=
       [0.30; 0.10; 0.25; 0.05; 0.05; 0.05; 0.05; 0.05; 0.05; 0.05] |}.

Definition encoders : gmap string (gmap string Z) :=
  {[ "segment"%string := {[ "Enterprise"%string := 0%Z; "SMB"%string := 1%Z ]};
     "channel"%string := {[ "Direct"%string := 0%Z; "Partner"%string := 1%Z ]} ]}.

Definition winrate_agent : WinRateAgent.t :=
  {| WinRateAgent.model := model; WinRateAgent.encoders := encoders |}.

(** A classifier that is not available. *)
Definition broken_model : WinRateAgent.Model :=
  {| WinRateAgent.predict_proba := fun _ => Raise "classifier unavailable";
     WinRateAgent.feature_importances_ := [] |}.

Definition explainer_agent : ExplainerAgent.t :=
  {| ExplainerAgent.execute := fun _ =>
       {| ExplainerAgent.explanation := "explanation";
          ExplainerAgent.recommendations := [];
          ExplainerAgent.key_insights := [];
          ExplainerAgent.reasons := [] |} |}.

Definition products_df : list ProductRow.t :=
  [ProductRow.mk "SKU-001" "P-001" "Widgets";
   ProductRow.mk "SKU-002" "P-002" "Gadgets";
   ProductRow.mk "SKU-003" "P-003" "Widgets"].

Definition cogs_df : list CogsRow.t :=
  [CogsRow.mk "P-001" 80.0; CogsRow.mk "P-002" 0.1; CogsRow.mk "P-003" 80.01].

Definition customers_df : list CustomerRow.t :=
  [CustomerRow.mk "C-100" "Enterprise" "Technology" "EMEA"].

Definition with_policy (policy_df : list PolicyRow.t) (m : WinRateAgent.Model)
    : Orchestrator.t :=
  {| Orchestrator.rules_agent := RulesAgent.mk policy_df;
     Orchestrator.winrate_agent := WinRateAgent.mk m encoders;
     Orchestrator.explainer_agent := explainer_agent;
     Orchestrator.products_df := products_df;
     Orchestrator.customers_df := customers_df;
     Orchestrator.cogs_df := cogs_df |}.

(** No policy row: the fallback policy applies. *)
Definition orchestrator : Orchestrator.t := with_policy [] model.

(** A policy row whose floor lies above its ceiling:
    [1 + min_margin_pct = 2.5 > 2.0 = ceiling_pct]. *)
Definition inconsistent_policy : list PolicyRow.t :=
  [PolicyRow.mk "EMEA" "Widgets" 1.5 2.0 None].

Definition request (sku : string) : Orchestrator.Request :=
  {| Orchestrator.sku := sku;
     Orchestrator.customer_id := "C-100";
     Orchestrator.quantity := 10;
     Orchestrator.country := "DE";
     Orchestrator.channel := "Direct";
     Orchestrator.currency := "EUR" |}.

(** A context as a caller of the agent builds it: Enterprise/EMEA by
    default, the given quantity, current and proposed price. *)
Definition pricing_context (quantity : Z) (current proposed : Q) : Context :=
  Ctx.set_proposed_price (Py proposed)
    (Ctx.set_current_price current (Ctx.set_quantity quantity Ctx.empty)).

(** The value a computation returned, or [d] if it raised. *)
Definition returned {A : Type} (d : A) (m : Exc A) : A :=
  match m with
  | Ok a => a
  | Raise _ => d
  end.

End Demo.

(** ** A classifier that always answers

    As [Demo.model], with a margin of 0 read from an empty feature row. *)

Module Sample.

Definition model : WinRateAgent.Model :=
  {| WinRateAgent.predict_proba := fun X =>
       let p := py_max2 0 (py_min2 1 (1 - hd 0 X)) in
       Ok (1 - p, p);
     WinRateAgent.feature_importances_ :=
       [0.30; 0.10; 0.25; 0.05; 0.05; 0.05; 0.05; 0.05; 0.05; 0.05] |}.

Definition orchestrator : Orchestrator.t := Demo.with_policy [] model.

End Sample.

(** ** [ElasticityAgent.get_demand_curve] *)

Module DemandCurve.

Record Point : Type := mkPoint { price : Q; quantity : Q; revenue : Q }.

(** One point of the curve: the agent run with the base price as current
    price and the point's price as proposed price. *)
Definition point (context : Context) (base_price price : Q) : Point :=
  let price_context := context in
  let price_context := Ctx.set_current_price base_price price_context in
  let price_context := Ctx.set_proposed_price (Py price) price_context in
  let result := ElasticityAgent.execute price_context in
  {| price := py_round price 2;
     quantity := ElasticityAgent.r_new_quantity_estimate result;
     revenue := py_round (price * ElasticityAgent.r_new_quantity_estimate result) 2 |}.

(** [price_range[len(price_range)//2]] is the base price; on an empty
    range the subscript raises [IndexError]. *)
Definition get_demand_curve (context : Context) (price_range : list Q)
    : Exc (list Point) :=
  match price_range !! (length price_range / 2)%nat with
  | None => Raise "list index out of range"
  | Some base_price => Ok (map (point context base_price) price_range)
  end.

End DemandCurve.

(** ** [api/model_service.py]: the legacy lookups *)

Module Legacy.

(** The dictionary [get_policy] returns: the three keys its callers read. *)
Record PolicyDict : Type := mkPolicyDict {
  min_margin_pct : Q;
  ceiling_pct : Q;
  approval_bands_json : option (list string)
}.

(** [get_policy(region, family)]: the first matching row, else the
    literal default, whose ['{}'] has no ['bands']. *)
Definition get_policy (policy : list PolicyRow.t) (region family : string)
    : PolicyDict :=
  match filter (fun r => String.eqb (PolicyRow.region r) region
                         && String.eqb (PolicyRow.family r) family) policy with
  | row :: _ =>
      {| min_margin_pct := PolicyRow.min_margin_pct row;
         ceiling_pct := PolicyRow.ceiling_pct row;
         approval_bands_json := PolicyRow.approval_bands_json row |}
  | [] => {| min_margin_pct := 0.1; ceiling_pct := 2.0; approval_bands_json := None |}
  end.

(** [get_cogs(product_id)]: the first matching cost, else [10.0]. *)
Definition get_cogs (cogs : list CogsRow.t) (product_id : string) : Q :=
  match filter (fun r => String.eqb (CogsRow.product_id r) product_id) cogs with
  | row :: _ => CogsRow.cogs row
  | [] => 10.0
  end.

End Legacy.

(** * Properties *)

(** ** Comparisons and rounding *)

Section Numerics.

Lemma Qgtb_true (a b : Q) : Qgtb a b = true <-> b < a.
Proof.
  unfold Qgtb. rewrite negb_true_iff, <- not_true_iff_false, Qle_bool_iff.
  split; [apply Qnot_le_lt | apply Qlt_not_le].
Qed.

Lemma Qgtb_false (a b : Q) : Qgtb a b = false <-> a <= b.
Proof.
  unfold Qgtb. rewrite negb_false_iff. apply Qle_bool_iff.
Qed.

Lemma Qltb_true (a b : Q) : Qltb a b = true <-> a < b.
Proof. apply Qgtb_true. Qed.

Lemma Qltb_false (a b : Q) : Qltb a b = false <-> b <= a.
Proof. apply Qgtb_false. Qed.

Lemma Qgeb_true (a b : Q) : Qgeb a b = true <-> b <= a.
Proof. apply Qle_bool_iff. Qed.

Lemma Qgeb_false (a b : Q) : Qgeb a b = false <-> a < b.
Proof.
  unfold Qgeb. rewrite <- not_true_iff_false, Qle_bool_iff.
  split; [apply Qnot_le_lt | apply Qlt_not_le].
Qed.

Lemma py_max2_spec (a b : Q) :
  (a < b /\ py_max2 a b = b) \/ (b <= a /\ py_max2 a b = a).
Proof.
  unfold py_max2. destruct (Qgtb b a) eqn:E.
  - left. split; [now apply Qgtb_true | reflexivity].
  - right. split; [now apply Qgtb_false | reflexivity].
Qed.

Lemma py_min2_spec (a b : Q) :
  (b < a /\ py_min2 a b = b) \/ (a <= b /\ py_min2 a b = a).
Proof.
  unfold py_min2. destruct (Qltb b a) eqn:E.
  - left. split; [now apply Qltb_true | reflexivity].
  - right. split; [now apply Qltb_false | reflexivity].
Qed.

(** The rounded integer is the floor or the next integer. *)
Lemma round_half_even_cases (q : Q) :
  let f := Qfloor q in
  (round_half_even q = f /\ q - inject_Z f <= 0.5)
  \/ (round_half_even q = (f + 1)%Z /\ 0.5 <= q - inject_Z f).
Proof.
  unfold round_half_even. cbv zeta.
  destruct (Qcompare (q - inject_Z (Qfloor q)) 0.5) eqn:E.
  - apply (proj2 (Qeq_alt _ _)) in E. destruct (Z.even (Qfloor q)).
    + left. split; [reflexivity | rewrite E; apply Qle_refl].
    + right. split; [reflexivity | rewrite E; apply Qle_refl].
  - apply (proj2 (Qlt_alt _ _)) in E. left. split; [reflexivity | now apply Qlt_le_weak].
  - apply (proj2 (Qgt_alt _ _)) in E. right. split; [reflexivity | now apply Qlt_le_weak].
Qed.

Lemma round_half_even_near (q : Q) :
  inject_Z (round_half_even q) - 0.5 <= q <= inject_Z (round_half_even q) + 0.5.
Proof.
  pose proof (Qfloor_le q) as Hlo. pose proof (Qlt_floor q) as Hhi.
  rewrite inject_Z_plus in Hhi. change (inject_Z 1) with 1 in Hhi.
  destruct (round_half_even_cases q) as [[-> H] | [-> H]]; cbv zeta in H.
  - generalize dependent (inject_Z (Qfloor q)). intros F; intros. split; lra.
  - rewrite inject_Z_plus. change (inject_Z 1) with 1.
    generalize dependent (inject_Z (Qfloor q)). intros F; intros. split; lra.
Qed.

#[global] Instance round_half_even_comp : Proper (Qeq ==> eq) round_half_even.
Proof.
  intros q q' H. unfold round_half_even.
  assert (Ef : Qfloor q' = Qfloor q) by (apply Qfloor_comp; symmetry; exact H).
  rewrite Ef.
  assert (Hc : Qcompare (q - inject_Z (Qfloor q)) 0.5
               = Qcompare (q' - inject_Z (Qfloor q)) 0.5).
  { apply Qcompare_comp; [| reflexivity].
    apply Qplus_comp; [exact H | reflexivity]. }
  rewrite Hc. reflexivity.
Qed.

Lemma round_half_even_inject (z : Z) : round_half_even (inject_Z z) = z.
Proof.
  unfold round_half_even. rewrite Qfloor_Z.
  assert (E : Qcompare (inject_Z z - inject_Z z) 0.5 = Lt).
  { apply (proj1 (Qlt_alt _ _)). generalize (inject_Z z). intros F. lra. }
  rewrite E. reflexivity.
Qed.

Lemma round_half_even_mono (q q' : Q) :
  q <= q' -> (round_half_even q <= round_half_even q')%Z.
Proof.
  intros H.
  pose proof (Qfloor_resp_le _ _ H) as Hf.
  destruct (round_half_even_cases q) as [[Hq Hd] | [Hq Hd]];
  destruct (round_half_even_cases q') as [[Hq' Hd'] | [Hq' Hd']]; cbv zeta in *.
  - lia.
  - lia.
  - destruct (Z.eq_dec (Qfloor q) (Qfloor q')) as [E | NE]; [| lia].
    (* same floor: both fractions are one half, and the tie goes one way *)
    assert (Hh : q - inject_Z (Qfloor q) == 0.5) by (rewrite E in *; lra).
    assert (Hh' : q' - inject_Z (Qfloor q') == 0.5) by (rewrite <- E in *; lra).
    revert Hq Hq'. unfold round_half_even.
    apply (proj1 (Qeq_alt _ _)) in Hh. apply (proj1 (Qeq_alt _ _)) in Hh'.
    rewrite Hh, Hh', E.
    destruct (Z.even (Qfloor q')); lia.
  - lia.
Qed.

Lemma pow10_pos (n : nat) : 0 < pow10 n.
Proof.
  unfold pow10. replace 0 with (inject_Z 0) by reflexivity.
  rewrite <- Zlt_Qlt. apply Z.pow_pos_nonneg; lia.
Qed.

#[global] Instance py_round_comp : Proper (Qeq ==> eq ==> Qeq) py_round.
Proof.
  intros q q' H n n' <-. unfold py_round.
  assert (E : q * pow10 n == q' * pow10 n) by (rewrite H; reflexivity).
  rewrite (round_half_even_comp _ _ E). reflexivity.
Qed.

Lemma py_round_mono (q q' : Q) (n : nat) :
  q <= q' -> py_round q n <= py_round q' n.
Proof.
  intros H. unfold py_round. pose proof (pow10_pos n) as Hp.
  apply Qmult_le_compat_r.
  - rewrite <- Zle_Qle. apply round_half_even_mono.
    apply Qmult_le_compat_r; [assumption | now apply Qlt_le_weak].
  - apply Qlt_le_weak, Qinv_lt_0_compat, Hp.
Qed.

(** A number already rounded to [n] decimals is left as it is. *)
Lemma py_round_idem (q : Q) (n : nat) :
  py_round (py_round q n) n == py_round q n.
Proof.
  unfold py_round at 1. pose proof (pow10_pos n) as Hp.
  assert (E : py_round q n * pow10 n == inject_Z (round_half_even (q * pow10 n))).
  { unfold py_round. field. lra. }
  rewrite (round_half_even_comp _ _ E), round_half_even_inject.
  reflexivity.
Qed.

(** Rounding moves a number by at most half a unit of the last decimal. *)
Lemma py_round_near (q : Q) (n : nat) :
  py_round q n - 0.5 / pow10 n <= q <= py_round q n + 0.5 / pow10 n.
Proof.
  pose proof (pow10_pos n) as Hp.
  pose proof (round_half_even_near (q * pow10 n)) as [Hlo Hhi].
  unfold py_round.
  set (r := inject_Z (round_half_even (q * pow10 n))) in *.
  assert (Hinv : 0 <= / pow10 n) by apply Qlt_le_weak, Qinv_lt_0_compat, Hp.
  assert (Hq : (q * pow10 n) / pow10 n == q) by (field; lra).
  assert (E1 : (r - 0.5) / pow10 n == r / pow10 n - 0.5 / pow10 n) by (field; lra).
  assert (E2 : (r + 0.5) / pow10 n == r / pow10 n + 0.5 / pow10 n) by (field; lra).
  pose proof (Qmult_le_compat_r _ _ (/ pow10 n) Hlo Hinv) as H1.
  pose proof (Qmult_le_compat_r _ _ (/ pow10 n) Hhi Hinv) as H2.
  unfold Qdiv in *. split; lra.
Qed.

(** Rounding keeps a number between two bounds that are themselves rounded. *)
Lemma py_round_between (lo hi x : Q) (n : nat) :
  py_round lo n <= x <= py_round hi n ->
  py_round lo n <= py_round x n <= py_round hi n.
Proof.
  intros [Hlo Hhi]. split.
  - rewrite <- (py_round_idem lo n). now apply py_round_mono.
  - rewrite <- (py_round_idem hi n). now apply py_round_mono.
Qed.

(** Two numbers more than one unit of the last decimal apart round to
    different values. *)
Lemma py_round_strict (q q' : Q) (n : nat) :
  q + 1 / pow10 n < q' -> py_round q n < py_round q' n.
Proof.
  intros H. pose proof (pow10_pos n) as Hp.
  pose proof (py_round_near q n) as [Hq _].
  pose proof (py_round_near q' n) as [_ Hq'].
  unfold Qdiv in *.
  set (a := py_round q n) in *. set (b := py_round q' n) in *.
  set (u := / pow10 n) in *. clearbody a b u. lra.
Qed.

End Numerics.

(** ** The error monad and the loop *)

Section Loops.

Context {A B : Type}.

Lemma bind_Ok (m : Exc A) (k : A -> Exc B) (b : B) :
  m ≫= k = Ok b <-> exists a, m = Ok a /\ k a = Ok b.
Proof.
  destruct m as [a | msg]; simpl; split.
  - intros H. exists a. split; [reflexivity | exact H].
  - intros [a' [[= <-] H]]. exact H.
  - discriminate.
  - intros [a' [[=] _]].
Qed.

Lemma Ok_inj (a a' : A) : Ok a = Ok a' -> a = a'.
Proof. now intros [= ->]. Qed.

Lemma bind_Ok_l (a : A) (k : A -> Exc B) : Ok a ≫= k = k a.
Proof. reflexivity. Qed.

Lemma bind_Raise (m : Exc A) (k : A -> Exc B) (msg : string) :
  m = Raise msg -> m ≫= k = Raise msg.
Proof. intros ->. reflexivity. Qed.

(** A loop that returns has run its body, without exception, on every
    element, in order. *)
Lemma for_each_Ok (body : A -> Exc B) (l : list A) (ys : list B) :
  for_each body l = Ok ys -> Forall2 (fun x y => body x = Ok y) l ys.
Proof.
  revert ys. induction l as [| x xs IH]; intros ys H; simpl in H.
  - injection H as <-. constructor.
  - destruct (body x) as [y | msg] eqn:Ey; simpl in H; [| discriminate].
    destruct (for_each body xs) as [ys' | msg] eqn:Eys; simpl in H; [| discriminate].
    injection H as <-. constructor; [exact Ey | now apply IH].
Qed.

(** A loop whose body never raises on the elements returns. *)
Lemma for_each_total (body : A -> Exc B) (l : list A) :
  Forall (fun x => exists y, body x = Ok y) l ->
  exists ys, for_each body l = Ok ys.
Proof.
  induction 1 as [| x xs [y Hy] _ [ys Hys]]; simpl.
  - now exists [].
  - rewrite Hy. simpl. rewrite Hys. simpl. now exists (y :: ys).
Qed.

End Loops.

(** ** [max] with a key *)

Section Max.

Context {A : Type} (key : A -> Q).

Local Abbreviation first_max := (Spec.first_max key).

Lemma first_max_singleton (x : A) : first_max [x] x.
Proof.
  exists 0%nat. split; [reflexivity |]. split.
  - intros c Hc. apply list_elem_of_singleton in Hc as ->. apply Qle_refl.
  - intros j c Hj. lia.
Qed.

Lemma first_max_snoc (pre : list A) (m y : A) :
  first_max pre m -> first_max (pre ++ [y]) (max_step key m y).
Proof.
  intros (i & Hi & Hall & Hbefore). unfold Spec.first_max, max_step.
  destruct (Qgtb (key y) (key m)) eqn:E.
  - apply Qgtb_true in E. exists (length pre). split; [| split].
    + rewrite lookup_app_r by lia. now rewrite Nat.sub_diag.
    + intros c Hc. apply elem_of_app in Hc as [Hc | Hc].
      * apply Qle_trans with (key m); [now apply Hall | now apply Qlt_le_weak].
      * apply list_elem_of_singleton in Hc as ->. apply Qle_refl.
    + intros j c Hj Hc. rewrite lookup_app_l in Hc by exact Hj.
      apply Qle_lt_trans with (key m); [| exact E].
      apply Hall. eapply list_elem_of_lookup_2, Hc.
  - apply Qgtb_false in E. exists i. split; [| split].
    + apply lookup_app_l_Some, Hi.
    + intros c Hc. apply elem_of_app in Hc as [Hc | Hc].
      * now apply Hall.
      * apply list_elem_of_singleton in Hc as ->. exact E.
    + intros j c Hj Hc. apply (Hbefore j c Hj).
      apply lookup_lt_Some in Hi.
      rewrite lookup_app_l in Hc by lia. exact Hc.
Qed.

Lemma fold_max_step (xs pre : list A) (m : A) :
  first_max pre m -> first_max (pre ++ xs) (fold_left (max_step key) xs m).
Proof.
  revert pre m. induction xs as [| y ys IH]; intros pre m H; simpl.
  - now rewrite app_nil_r.
  - replace (pre ++ y :: ys) with ((pre ++ [y]) ++ ys)
      by (now rewrite <- app_assoc).
    apply IH, first_max_snoc, H.
Qed.

(** [max(l, key=key)] returns the first item with the greatest key. *)
Lemma py_max_by_first_max (l : list A) (m : A) :
  py_max_by key l = Ok m -> first_max l m.
Proof.
  destruct l as [| x xs]; simpl; [discriminate |].
  intros [= <-]. apply (fold_max_step xs [x] x), first_max_singleton.
Qed.

Lemma py_max_by_total (l : list A) :
  l <> [] -> exists m, py_max_by key l = Ok m.
Proof.
  destruct l as [| x xs]; [congruence |]. intros _. simpl. eauto.
Qed.

Lemma first_max_elem (l : list A) (m : A) : first_max l m -> m ∈ l.
Proof. intros (i & Hi & _). eapply list_elem_of_lookup_2, Hi. Qed.

End Max.

(** ** [np.linspace] *)

Section Linspace.

Lemma inject_Z_succ (i : nat) :
  inject_Z (Z.of_nat (S i)) == inject_Z (Z.of_nat i) + 1.
Proof. rewrite Nat2Z.inj_succ. unfold Z.succ. now rewrite inject_Z_plus. Qed.

Lemma inject_Z_of_nat_pos (n : nat) : (0 < n)%nat -> 0 < inject_Z (Z.of_nat n).
Proof.
  intros H. replace 0 with (inject_Z 0) by reflexivity. rewrite <- Zlt_Qlt. lia.
Qed.

Lemma length_linspace (start stop : Q) (num : nat) :
  length (linspace start stop num) = num.
Proof.
  destruct num as [| [| n]]; simpl; [reflexivity | reflexivity |].
  rewrite length_app, length_map, length_seq. simpl. lia.
Qed.

(** Every grid point has the closed form [start + i * (stop - start) / (num - 1)]. *)
Lemma lookup_linspace (start stop : Q) (num i : nat) (x : Q) :
  (2 <= num)%nat ->
  linspace start stop num !! i = Some x ->
  (i < num)%nat /\ x == grid_point start stop num i.
Proof.
  intros Hnum H.
  assert (Hi : (i < num)%nat).
  { apply lookup_lt_Some in H. now rewrite length_linspace in H. }
  split; [exact Hi |].
  destruct num as [| [| n]]; [lia | lia |].
  unfold linspace in H. unfold grid_point.
  replace (S (S n) - 1)%nat with (S n) by lia.
  set (N := inject_Z (Z.of_nat (S n))) in *.
  assert (HN : 0 < N) by (apply inject_Z_of_nat_pos; lia).
  destruct (decide (i < S n)%nat) as [Hlt | Hge].
  - rewrite lookup_app_l in H by (now rewrite length_map, length_seq).
    rewrite list_lookup_fmap, lookup_seq_lt in H by exact Hlt.
    simpl in H. injection H as <-. ring.
  - assert (i = S n) as -> by lia.
    rewrite lookup_app_r in H by (rewrite length_map, length_seq; lia).
    rewrite length_map, length_seq, Nat.sub_diag in H. simpl in H.
    injection H as <-. fold N. field. lra.
Qed.

Lemma lookup_linspace_total (start stop : Q) (num i : nat) :
  (i < num)%nat -> exists x, linspace start stop num !! i = Some x.
Proof.
  intros H. apply lookup_lt_is_Some_2. now rewrite length_linspace.
Qed.

(** Consecutive grid points are one step apart. *)
Lemma grid_point_step (start stop : Q) (num i : nat) :
  grid_point start stop num (S i) - grid_point start stop num i
  == (stop - start) / inject_Z (Z.of_nat (num - 1)).
Proof. unfold grid_point. rewrite inject_Z_succ. ring. Qed.

Lemma grid_point_first (start stop : Q) (num : nat) :
  grid_point start stop num 0 == start.
Proof. unfold grid_point. simpl. ring. Qed.

Lemma grid_point_last (start stop : Q) (num : nat) :
  (2 <= num)%nat -> grid_point start stop num (num - 1) == stop.
Proof.
  intros H. unfold grid_point.
  assert (0 < inject_Z (Z.of_nat (num - 1))) by (apply inject_Z_of_nat_pos; lia).
  field. lra.
Qed.

Lemma grid_point_bounds (start stop : Q) (num i : nat) :
  (2 <= num)%nat -> (i < num)%nat -> start <= stop ->
  start <= grid_point start stop num i <= stop.
Proof.
  intros Hnum Hi Hle. unfold grid_point.
  set (N := inject_Z (Z.of_nat (num - 1))).
  set (I := inject_Z (Z.of_nat i)).
  assert (HN : 0 < N) by (apply inject_Z_of_nat_pos; lia).
  assert (HI0 : 0 <= I).
  { unfold I. replace 0 with (inject_Z 0) by reflexivity. rewrite <- Zle_Qle. lia. }
  assert (HIN : I <= N).
  { unfold I, N. rewrite <- Zle_Qle. lia. }
  assert (Hs : 0 <= (stop - start) / N).
  { apply Qle_shift_div_l; [exact HN | lra]. }
  assert (E : stop == start + N * ((stop - start) / N)) by (field; lra).
  clearbody N I. set (s := (stop - start) / N) in *. clearbody s.
  split; [nra | rewrite E; nra].
Qed.

End Linspace.

(** ** Ascending lists *)

Section Ascending.

Lemma ascending_lookup (l : list Q) :
  (forall (i : nat) x y, l !! i = Some x -> l !! S i = Some y -> x <= y) ->
  ascending l = true.
Proof.
  induction l as [| x xs IH]; intros H; [reflexivity |].
  destruct xs as [| y ys]; [reflexivity |].
  change (Qle_bool x y && ascending (y :: ys) = true).
  apply andb_true_intro. split.
  - apply Qle_bool_iff. now apply (H 0%nat).
  - apply IH. intros i a b Ha Hb. now apply (H (S i)).
Qed.

Lemma strictly_ascending_lookup (l : list Q) :
  (forall (i : nat) x y, l !! i = Some x -> l !! S i = Some y -> x < y) ->
  strictly_ascending l = true.
Proof.
  induction l as [| x xs IH]; intros H; [reflexivity |].
  destruct xs as [| y ys]; [reflexivity |].
  change (Qltb x y && strictly_ascending (y :: ys) = true).
  apply andb_true_intro. split.
  - apply Qltb_true. now apply (H 0%nat).
  - apply IH. intros i a b Ha Hb. now apply (H (S i)).
Qed.

(** Two consecutive points of a grid and their distance. *)
Lemma linspace_consecutive (start stop : Q) (num i : nat) (x y : Q) :
  (2 <= num)%nat ->
  linspace start stop num !! i = Some x ->
  linspace start stop num !! S i = Some y ->
  y - x == (stop - start) / inject_Z (Z.of_nat (num - 1)).
Proof.
  intros Hnum Hx Hy.
  apply lookup_linspace in Hx as [_ Hx]; [| exact Hnum].
  apply lookup_linspace in Hy as [_ Hy]; [| exact Hnum].
  rewrite Hx, Hy. apply grid_point_step.
Qed.

Lemma linspace_step_nonneg (start stop : Q) (num : nat) :
  (2 <= num)%nat -> start <= stop ->
  0 <= (stop - start) / inject_Z (Z.of_nat (num - 1)).
Proof.
  intros Hnum Hle.
  apply Qle_shift_div_l; [apply inject_Z_of_nat_pos; lia | lra].
Qed.

(** A grid from a lower to a higher bound is ascending. *)
Lemma linspace_ascending (start stop : Q) (num : nat) :
  (2 <= num)%nat -> start <= stop -> ascending (linspace start stop num) = true.
Proof.
  intros Hnum Hle. apply ascending_lookup. intros i x y Hx Hy.
  pose proof (linspace_consecutive _ _ _ _ _ _ Hnum Hx Hy) as E.
  pose proof (linspace_step_nonneg _ _ _ Hnum Hle) as Hs.
  set (s := (stop - start) / inject_Z (Z.of_nat (num - 1))) in *. clearbody s. lra.
Qed.

(** Every point of such a grid lies between the bounds. *)
Lemma linspace_bounds (start stop : Q) (num : nat) (x : Q) :
  (2 <= num)%nat -> start <= stop ->
  x ∈ linspace start stop num -> start <= x <= stop.
Proof.
  intros Hnum Hle Hx. apply list_elem_of_lookup_1 in Hx as [i Hi].
  apply lookup_linspace in Hi as [Hi E]; [| exact Hnum].
  rewrite E. now apply grid_point_bounds.
Qed.

End Ascending.

(** ** The rules agent *)

Section Rules.

Lemma filter_none {A : Type} (P : A -> Prop) `{forall x, Decision (P x)} (l : list A) :
  (forall x, x ∈ l -> ~ P x) -> filter P l = [].
Proof.
  induction l as [| x xs IH]; intros HP; [reflexivity |].
  rewrite filter_cons_False by (apply HP; left).
  apply IH. intros y Hy. apply HP. now right.
Qed.

Lemma find_policy_default (self : RulesAgent.t) (context : Context) :
  Spec.no_policy_row self context ->
  RulesAgent.find_policy self context
  = RulesAgent.mkPolicy 0.10 2.0 ["APPROVED"; "REVIEW"; "REJECT"]%string.
Proof.
  intros H. unfold RulesAgent.find_policy.
  set (P := fun r : PolicyRow.t => _).
  assert (E : filter P (RulesAgent.policy_df self) = []).
  { apply filter_none. intros r Hr HP.
    apply (H r Hr). unfold P in HP.
    apply Is_true_true, andb_true_iff in HP as [H1 H2].
    apply String.eqb_eq in H1, H2. now split. }
  now rewrite E.
Qed.

(** The band is always one of the three. *)
Lemma get_approval_band_range (self : RulesAgent.t) (price cogs : Q) (context : Context) :
  let band := RulesAgent.get_approval_band self price cogs context in
  band = "APPROVED"%string \/ band = "REVIEW"%string \/ band = "REJECT"%string.
Proof.
  unfold RulesAgent.get_approval_band. cbv zeta.
  destruct (Qgeb _ _); [destruct (Qle_bool _ _) |]; auto.
Qed.







End Rules.

(** ** The elasticity agent *)

Section Elasticity.

Import ElasticityAgent.

Lemma py_min2_Qmin (a b a' b' : Q) :
  a == a' -> b == b' -> py_min2 a b == Qmin a' b'.
Proof.
  intros Ha Hb.
  destruct (py_min2_spec a b) as [[H ->] | [H ->]];
  destruct (Q.min_spec a' b') as [[H' E] | [H' E]]; rewrite E; lra.
Qed.

Lemma py_max2_Qmax (a b a' b' : Q) :
  a == a' -> b == b' -> py_max2 a b == Qmax a' b'.
Proof.
  intros Ha Hb.
  destruct (py_max2_spec a b) as [[H ->] | [H ->]];
  destruct (Q.max_spec a' b') as [[H' E] | [H' E]]; rewrite E; lra.
Qed.

(** The parameters in force are one of the four table entries or the
    fallback. *)
Lemma params_of_cases (context : Context) :
  params_of context = mkParams (-1.2) 0.1
  \/ params_of context = mkParams (-1.1) 0.12
  \/ params_of context = mkParams (-1.8) 0.05
  \/ params_of context = mkParams (-1.7) 0.08
  \/ params_of context = mkParams (-1.5) 0.08.
Proof.
  unfold params_of.
  destruct (elasticity_params !! _) as [p |] eqn:E; [| tauto].
  unfold elasticity_params in E.
  apply lookup_insert_Some in E as [[_ <-] | [_ E]]; [tauto |].
  apply lookup_insert_Some in E as [[_ <-] | [_ E]]; [tauto |].
  apply lookup_insert_Some in E as [[_ <-] | [_ E]]; [tauto |].
  apply lookup_singleton_Some in E as [_ <-]. tauto.
Qed.

(** The equations of the local variables. *)
Lemma vars_current_price (context : Context) :
  current_price (vars context)
  = default (default 100 (num_val <$> Ctx.target_price context))
            (Ctx.current_price context).
Proof. reflexivity. Qed.

Lemma vars_proposed_price (context : Context) :
  proposed_price (vars context)
  = default (current_price (vars context)) (num_val <$> Ctx.proposed_price context).
Proof. reflexivity. Qed.

Lemma vars_volume_factor (context : Context) :
  volume_factor (vars context)
  = py_min2 1.0 (inject_Z (default 10%Z (Ctx.quantity context)) / 20.0).
Proof. reflexivity. Qed.

Lemma vars_adjusted_elasticity (context : Context) :
  adjusted_elasticity (vars context)
  = base_elasticity (params_of context)
    * (1 - volume_factor (vars context) * volume_adj (params_of context)).
Proof. reflexivity. Qed.

Lemma vars_price_change_pct (context : Context) :
  price_change_pct (vars context)
  = if Qgtb (current_price (vars context)) 0
    then (proposed_price (vars context) - current_price (vars context))
         / current_price (vars context)
    else 0.
Proof. reflexivity. Qed.

Lemma vars_demand_change_pct (context : Context) :
  demand_change_pct (vars context)
  = adjusted_elasticity (vars context) * price_change_pct (vars context).
Proof. reflexivity. Qed.

Lemma vars_new_quantity (context : Context) :
  new_quantity (vars context)
  = py_max2 1 (inject_Z (default 10%Z (Ctx.quantity context))
               * (1 + demand_change_pct (vars context))).
Proof. reflexivity. Qed.

Lemma volume_factor_le_1 (context : Context) : volume_factor (vars context) <= 1.
Proof.
  rewrite vars_volume_factor.
  destruct (py_min2_spec 1.0 (inject_Z (default 10%Z (Ctx.quantity context)) / 20.0))
    as [[H ->] | [H ->]]; lra.
Qed.

(** The elasticity is negative whatever the context: the volume factor is
    at most 1 and the volume adjustment at most 0.12. *)
Lemma adjusted_elasticity_upper (context : Context) :
  adjusted_elasticity (vars context) <= -0.968.
Proof.
  rewrite vars_adjusted_elasticity.
  pose proof (volume_factor_le_1 context) as Hv.
  set (vf := volume_factor (vars context)) in *. clearbody vf.
  destruct (params_of_cases context) as [E | [E | [E | [E | E]]]];
    rewrite E; simpl; lra.
Qed.

(** An integer quantity never brings the elasticity to -2, so the markup
    rule [cogs / (1 - optimal_markup)] never divides by zero. *)
Lemma adjusted_elasticity_not_minus_2 (context : Context) :
  ~ adjusted_elasticity (vars context) == -2.
Proof.
  rewrite vars_adjusted_elasticity, vars_volume_factor.
  set (z := default 10%Z (Ctx.quantity context)).
  intros H.
  destruct (py_min2_spec 1.0 (inject_Z z / 20.0)) as [[_ E] | [_ E]];
    rewrite E in H; clear E;
    destruct (params_of_cases context) as [E | [E | [E | [E | E]]]];
    rewrite E in H; simpl in H; try (revert H; lra).
  - assert (Hz : inject_Z z == - (400 # 3)).
    { revert H. generalize (inject_Z z). intros x H.
      assert (Hx : x / 20.0 == x * 0.05) by (now field). rewrite Hx in H. lra. }
    unfold Qeq in Hz. simpl in Hz. lia.
  - assert (Hz : inject_Z z == - (1500 # 11)).
    { revert H. generalize (inject_Z z). intros x H.
      assert (Hx : x / 20.0 == x * 0.05) by (now field). rewrite Hx in H. lra. }
    unfold Qeq in Hz. simpl in Hz. lia.
  - assert (Hz : inject_Z z == - (400 # 9)).
    { revert H. generalize (inject_Z z). intros x H.
      assert (Hx : x / 20.0 == x * 0.05) by (now field). rewrite Hx in H. lra. }
    unfold Qeq in Hz. simpl in Hz. lia.
  - assert (Hz : inject_Z z == - (750 # 17)).
    { revert H. generalize (inject_Z z). intros x H.
      assert (Hx : x / 20.0 == x * 0.05) by (now field). rewrite Hx in H. lra. }
    unfold Qeq in Hz. simpl in Hz. lia.
  - assert (Hz : inject_Z z == - (250 # 3)).
    { revert H. generalize (inject_Z z). intros x H.
      assert (Hx : x / 20.0 == x * 0.05) by (now field). rewrite Hx in H. lra. }
    unfold Qeq in Hz. simpl in Hz. lia.
Qed.

Lemma suggested_price_denominator (context : Context) :
  adjusted_elasticity (vars context) < -1 ->
  ~ 1 - -1 / (adjusted_elasticity (vars context) + 1) == 0.
Proof.
  intros Hlt H. apply (adjusted_elasticity_not_minus_2 context).
  set (a := adjusted_elasticity (vars context)) in *. clearbody a.
  assert (E : (1 - -1 / (a + 1)) * (a + 1) == a + 2) by (field; lra).
  rewrite H in E. lra.
Qed.

(** The demand change depends on the context through six keys only; the
    cost of goods is not among them. *)
Lemma demand_change_pct_inputs (c c' : Context) :
  Ctx.customer_segment c' = Ctx.customer_segment c ->
  Ctx.region c' = Ctx.region c ->
  Ctx.quantity c' = Ctx.quantity c ->
  Ctx.current_price c' = Ctx.current_price c ->
  Ctx.target_price c' = Ctx.target_price c ->
  Ctx.proposed_price c' = Ctx.proposed_price c ->
  demand_change_pct (vars c') = demand_change_pct (vars c).
Proof.
  intros Hs Hr Hq Hc Ht Hp.
  rewrite !vars_demand_change_pct, !vars_adjusted_elasticity,
    !vars_price_change_pct, !vars_volume_factor, !vars_proposed_price,
    !vars_current_price.
  unfold params_of. rewrite Hs, Hr, Hq, Hc, Ht, Hp. reflexivity.
Qed.

(** ** The baseline of 100

    A context with a proposed price and neither a current nor a target
    price: the agent measures the price change against 100. *)

Lemma baseline_current_price (c : Context) :
  Ctx.current_price c = None -> Ctx.target_price c = None ->
  current_price (vars c) = 100.
Proof. intros Hc Ht. rewrite vars_current_price, Hc, Ht. reflexivity. Qed.

Lemma baseline_proposed_price (c : Context) (p : num) :
  Ctx.proposed_price c = Some p -> proposed_price (vars c) = num_val p.
Proof. intros Hp. rewrite vars_proposed_price, Hp. reflexivity. Qed.

Lemma baseline_price_change_pct (c : Context) (p : num) :
  Ctx.current_price c = None -> Ctx.target_price c = None ->
  Ctx.proposed_price c = Some p ->
  price_change_pct (vars c) = (num_val p - 100) / 100.
Proof.
  intros Hc Ht Hp.
  rewrite vars_price_change_pct, (baseline_proposed_price c p Hp),
    (baseline_current_price c Hc Ht).
  reflexivity.
Qed.

Lemma baseline_demand_zero (c : Context) (p : num) :
  Ctx.current_price c = None -> Ctx.target_price c = None ->
  Ctx.proposed_price c = Some p ->
  demand_change_pct (vars c) == 0 <-> num_val p == 100.
Proof.
  intros Hc Ht Hp.
  rewrite vars_demand_change_pct, (baseline_price_change_pct c p Hc Ht Hp).
  pose proof (adjusted_elasticity_upper c) as Hneg.
  set (a := adjusted_elasticity (vars c)) in *. clearbody a.
  set (x := num_val p). clearbody x.
  assert (E : (x - 100) / 100 == (x - 100) * 0.01) by (now field).
  rewrite E. split.
  - intros Hz. apply Qmult_integral in Hz as [Hz | Hz]; lra.
  - intros Hx. rewrite Hx. ring.
Qed.

Lemma py_round_nonpos (q : Q) (n : nat) : q <= 0 -> py_round q n <= 0.
Proof.
  intros H. apply (py_round_mono _ _ n) in H.
  assert (E : py_round 0 n == 0).
  { unfold py_round. rewrite Qmult_0_l. simpl. unfold Qdiv. apply Qmult_0_l. }
  lra.
Qed.

(** The code's elasticity is the specification's formula. *)
Lemma adjusted_elasticity_spec (context : Context) :
  adjusted_elasticity (vars context)
  == Spec.adjusted_elasticity (base_elasticity (params_of context))
       (volume_adj (params_of context))
       (inject_Z (default 10%Z (Ctx.quantity context))).
Proof.
  rewrite vars_adjusted_elasticity, vars_volume_factor.
  unfold Spec.adjusted_elasticity.
  set (qty := inject_Z _).
  assert (E : py_min2 1.0 (qty / 20.0) == Qmin 1 (qty / 20)).
  { apply py_min2_Qmin; [reflexivity |]. unfold Qdiv.
    apply Qmult_comp; reflexivity. }
  rewrite E. reflexivity.
Qed.




(** C6: for every context with quantity >= 1 the adjusted elasticity is
    strictly negative, for every table entry and the fallback parameters,
    and a price increase (price_change_pct > 0) gives demand_change_pct <= 0;
    both hold for the values the agent returns as well. *)
Theorem C6_elasticity_sign (context : Context) :
  (1 <= default 10 (Ctx.quantity context))%Z ->
  adjusted_elasticity (vars context) < 0
  /\ r_price_elasticity (execute context) < 0
  /\ (0 < price_change_pct (vars context) ->
      demand_change_pct (vars context) <= 0
      /\ r_demand_change_pct (execute context) <= 0).
Proof.
  intros _. pose proof (adjusted_elasticity_upper context) as Ha.
  split; [lra |]. split.
  - change (py_round (adjusted_elasticity (vars context)) 2 < 0).
    apply (py_round_mono _ _ 2) in Ha.
    assert (E : py_round (-0.968) 2 == -0.97) by reflexivity.
    set (a := py_round (adjusted_elasticity (vars context)) 2) in *.
    set (b := py_round (-0.968) 2) in *. clearbody a b. lra.
  - intros Hp.
    assert (Hd : demand_change_pct (vars context) <= 0).
    { rewrite vars_demand_change_pct.
      set (a := adjusted_elasticity (vars context)) in *.
      set (c := price_change_pct (vars context)) in *. clearbody a c. nra. }
    split; [exact Hd |].
    change (py_round (demand_change_pct (vars context)) 3 <= 0).
    now apply py_round_nonpos.
Qed.

Lemma C6_elasticity_sign_witness :
  adjusted_elasticity (vars (Demo.pricing_context 10 100 110)) < 0
  /\ demand_change_pct (vars (Demo.pricing_context 10 100 110)) <= 0.
Proof.
  destruct (C6_elasticity_sign (Demo.pricing_context 10 100 110)) as (H1 & _ & H3).
  - simpl. lia.
  - split; [exact H1 |]. apply H3. reflexivity.
Defined.

End Elasticity.

(** ** The win-rate agent *)

Section WinRate.

Import WinRateAgent.

Lemma length_insert_desc (x : string * Q) (l : list (string * Q)) :
  length (insert_desc x l) = S (length l).
Proof.
  induction l as [| y ys IH]; simpl; [reflexivity |].
  destruct (Qgtb (snd x) (snd y)); simpl; [reflexivity | now rewrite IH].
Qed.

Lemma length_sorted_desc (l : list (string * Q)) :
  length (sorted_desc l) = length l.
Proof.
  unfold sorted_desc.
  assert (H : forall acc, length (fold_left (fun acc x => insert_desc x acc) l acc)
                          = (length l + length acc)%nat).
  { induction l as [| x xs IH]; intros acc; simpl; [reflexivity |].
    rewrite IH, length_insert_desc. lia. }
  rewrite H. simpl. lia.
Qed.

(** On a NumPy price the agent raises only if the model does. *)
Lemma execute_np_total (self : t) (context : Context) (p : Q) :
  Spec.usable (model self) ->
  Ctx.proposed_price context = Some (Np p) ->
  exists w, execute self context = Ok w.
Proof.
  intros [Hp Hf] Hc. unfold execute. rewrite Hc. cbv zeta.
  set (top := take 3 (sorted_desc (zip feature_cols (feature_importances_ (model self))))).
  assert (Ht : exists f fs, top = f :: fs).
  { destruct top as [| f fs] eqn:E; [| eauto]. exfalso.
    apply (f_equal length) in E. unfold top in E.
    rewrite length_take, length_sorted_desc, length_zip in E.
    destruct (feature_importances_ (model self)); [congruence | simpl in E; lia]. }
  destruct Ht as (f & fs & ->).
  assert (Hd : exists d, discount_depth (default (default (Py 100) (Ctx.target_price context)) (Some (Np p))) = Ok d).
  { unfold discount_depth. simpl. destruct (Qeq_bool _ _); eauto. }
  destruct Hd as [d ->]. simpl mbind. unfold exc_bind at 1.
  match goal with |- context [predict_proba (model self) ?X] =>
    destruct (Hp X) as [proba ->] end.
  unfold exc_bind. eauto.
Qed.

(** On a Python price the agent raises at price 0, before the model is
    asked. *)
Lemma execute_py_zero (self : t) (context : Context) (p : Q) :
  Ctx.proposed_price context = Some (Py p) -> p == 0 ->
  execute self context = Raise "float division by zero".
Proof.
  intros Hc Hz. unfold execute. rewrite Hc. cbv zeta.
  assert (E : discount_depth (default (default (Py 100) (Ctx.target_price context)) (Some (Py p)))
              = Raise "float division by zero").
  { unfold discount_depth. simpl.
    assert (Hq : Qeq_bool (p * 1.2) 0 = true).
    { apply Qeq_bool_iff. rewrite Hz. reflexivity. }
    now rewrite Hq. }
  now rewrite E.
Qed.

(** The curve has one point per price, in the order of the prices, each
    from its own call of [execute]. *)
Lemma get_win_curve_Ok (self : t) (context : Context) (price_range : list Q)
    (curve : list CurvePoint) :
  get_win_curve self context price_range = Ok curve ->
  Forall2 (fun p point =>
             exists w, execute self (Ctx.set_proposed_price (Np p) context) = Ok w
                       /\ point = mkPoint (py_round p 2) (win_probability w))
          price_range curve.
Proof.
  intros H. apply for_each_Ok in H.
  eapply Forall2_impl; [exact H |]. intros p point Hp. cbv beta zeta in Hp.
  destruct (execute self (Ctx.set_proposed_price (Np p) context)) as [w | msg];
    simpl in Hp; [| discriminate].
  injection Hp as <-. now exists w.
Qed.

End WinRate.

(** ** The orchestrator: enrichment *)

Section Enrichment.

Import Orchestrator.

(** The enrichment returns, whatever the tables hold, and these are its
    keys. *)
Lemma enrich_context_Ok (self : t) (req : Request) :
  exists context,
    _enrich_context self req = Ok context
    /\ Ctx.product_family context = Some (Spec.enriched_product_family self req)
    /\ Ctx.cogs context = Some (Spec.enriched_cogs self req)
    /\ Ctx.customer_segment context = Some (Spec.enriched_customer_segment self req)
    /\ Ctx.region context = Some (Spec.enriched_region self req)
    /\ Ctx.competitor_price context = Some (Spec.enriched_cogs self req * 1.3)
    /\ Ctx.quantity context = Some (quantity req)
    /\ Ctx.proposed_price context = None
    /\ Ctx.target_price context = None
    /\ Ctx.current_price context = None.
Proof.
  unfold _enrich_context, Spec.enriched_product_family, Spec.enriched_cogs,
    Spec.enriched_customer_segment, Spec.enriched_region.
  destruct (product_row self req) as [prow |];
    [destruct (cogs_row self (ProductRow.product_id prow)) as [crow |] |];
    destruct (customer_row self req) as [curow |];
    (eexists; split; [reflexivity | repeat split]).
Qed.

End Enrichment.

(** ** The orchestrator: the grid search *)

Section GridSearch.

Import Orchestrator.

Lemma score_candidate_Ok (self : t) (context : Context) (p : Q) (c : Candidate) :
  score_candidate self context p = Ok c ->
  exists w cogs,
    WinRateAgent.execute (winrate_agent self) (candidate_context context p) = Ok w
    /\ Ctx.cogs context = Some cogs
    /\ price c = p
    /\ win_probability c = WinRateAgent.win_probability w
    /\ expected_margin c = (p - cogs) * WinRateAgent.win_probability w.
Proof.
  unfold score_candidate, getitem_cogs. cbv zeta.
  destruct (WinRateAgent.execute _ _) as [w | msg]; simpl; [| discriminate].
  destruct (Ctx.cogs context) as [cogs |]; simpl; [| discriminate].
  intros [= <-]. exists w, cogs. repeat split; reflexivity.
Qed.

Lemma score_candidate_total (self : t) (context : Context) (p : Q) :
  Spec.usable (WinRateAgent.model (winrate_agent self)) ->
  is_Some (Ctx.cogs context) ->
  exists c, score_candidate self context p = Ok c.
Proof.
  intros Hu [cogs Hc]. unfold score_candidate, getitem_cogs. cbv zeta.
  destruct (execute_np_total (winrate_agent self)
              (candidate_context context p) p Hu eq_refl) as [w ->].
  rewrite Hc. simpl. eauto.
Qed.

(** The candidates carry the grid's prices, in the grid's order. *)
Lemma candidate_prices (self : t) (context : Context) (grid : list Q)
    (scores : list Candidate) :
  for_each (score_candidate self context) grid = Ok scores ->
  price <$> scores = grid.
Proof.
  intros H. apply for_each_Ok in H.
  induction H as [| p c ps cs Hpc _ IH]; [reflexivity |].
  apply score_candidate_Ok in Hpc as (w & cogs & _ & _ & Hp & _).
  rewrite fmap_cons, Hp, IH. reflexivity.
Qed.

Lemma candidate_elem (self : t) (context : Context) (grid : list Q)
    (scores : list Candidate) (c : Candidate) :
  for_each (score_candidate self context) grid = Ok scores ->
  c ∈ scores ->
  price c ∈ grid /\ score_candidate self context (price c) = Ok c.
Proof.
  intros H Hc. pose proof (candidate_prices _ _ _ _ H) as Hp.
  apply for_each_Ok in H.
  apply list_elem_of_lookup_1 in Hc as [i Hi].
  destruct (Forall2_lookup_r _ _ _ _ _ H Hi) as (p & Hgp & Hpc).
  pose proof Hpc as Hsc.
  apply score_candidate_Ok in Hpc as (w & cogs & _ & _ & E & _).
  rewrite E. split; [eapply list_elem_of_lookup_2, Hgp | exact Hsc].
Qed.

(** What [select_prices] has computed when it returns. *)
Lemma select_prices_Ok (self : t) (req : Request) (sel : Selection) :
  select_prices self req = Ok sel ->
  exists context0,
    _enrich_context self req = Ok context0
    /\ s_rules_result sel = RulesAgent.execute (rules_agent self) context0
    /\ s_context sel = update_rules (s_rules_result sel) context0
    /\ s_price_candidates sel
       = linspace (RulesAgent.floor_price (s_rules_result sel))
                  (RulesAgent.ceiling_price (s_rules_result sel)) 20
    /\ for_each (score_candidate self (s_context sel)) (s_price_candidates sel)
       = Ok (s_candidate_scores sel)
    /\ py_max_by expected_margin (s_candidate_scores sel) = Ok (s_target_candidate sel)
    /\ match filter (fun c => Qgtb (win_probability c) 0.2) (s_candidate_scores sel) with
       | [] => s_stretch_price sel = RulesAgent.ceiling_price (s_rules_result sel)
       | viable => exists c, py_max_by price viable = Ok c /\ s_stretch_price sel = price c
       end.
Proof.
  unfold select_prices. intros H.
  apply bind_Ok in H as (context0 & E0 & H). cbv beta zeta in H.
  apply bind_Ok in H as (scores & Es & H). cbv beta in H.
  apply bind_Ok in H as (tc & Et & H). cbv beta in H.
  apply bind_Ok in H as (sp & Esp & H). cbv beta in H.
  injection H as <-. exists context0.
  cbn [s_context s_rules_result s_price_candidates s_candidate_scores
       s_target_candidate s_stretch_price].
  repeat (split; [first [reflexivity | assumption] |]).
  destruct (filter _ scores) as [| v vs] eqn:Ev.
  - now injection Esp as <-.
  - apply bind_Ok in Esp as (c & Ec & Esp). injection Esp as <-. eauto.
Qed.

(** The selection returns whenever the classifier is usable. *)
Lemma select_prices_total (self : t) (req : Request) :
  Spec.usable (WinRateAgent.model (winrate_agent self)) ->
  exists sel, select_prices self req = Ok sel.
Proof.
  intros Hu.
  destruct (enrich_context_Ok self req) as (context0 & E0 & _ & Hc & _).
  pose (rules_result := RulesAgent.execute (rules_agent self) context0).
  pose (context := update_rules rules_result context0).
  pose (grid := linspace (RulesAgent.floor_price rules_result)
                         (RulesAgent.ceiling_price rules_result) 20).
  destruct (for_each_total (score_candidate self context) grid) as [scores Hs].
  { apply Forall_forall. intros p _. apply score_candidate_total; [exact Hu |].
    unfold context, update_rules. simpl. rewrite Hc. eauto. }
  assert (Hne : scores <> []).
  { intros ->. apply for_each_Ok, Forall2_length in Hs.
    unfold grid in Hs. rewrite length_linspace in Hs. simpl in Hs. lia. }
  destruct (py_max_by_total expected_margin scores Hne) as [tc Ht].
  assert (Hst : exists sp,
            match filter (fun c => Qgtb (win_probability c) 0.2) scores with
            | [] => Ok (RulesAgent.ceiling_price rules_result)
            | _ :: _ =>
                c ← py_max_by price
                      (filter (fun c => Qgtb (win_probability c) 0.2) scores);
                Ok (price c)
            end = Ok sp).
  { destruct (filter _ scores) as [| v vs] eqn:Ev; [eauto |].
    destruct (py_max_by_total price (v :: vs)) as [c Hc']; [discriminate |].
    rewrite Hc'. simpl. eauto. }
  destruct Hst as [sp Hsp].
  eexists. unfold select_prices.
  apply bind_Ok. exists context0. split; [exact E0 |]. cbv beta zeta.
  apply bind_Ok. exists scores. split; [exact Hs |]. cbv beta.
  apply bind_Ok. exists tc. split; [exact Ht |]. cbv beta.
  apply bind_Ok. exists sp. split; [exact Hsp |]. cbv beta.
  reflexivity.
Qed.

(** What [recommend_price] returns, in terms of the selection. *)
Lemma recommend_price_Ok (self : t) (req : Request) (r : Recommendation) :
  recommend_price self req = Ok r ->
  exists sel final_winrate,
    select_prices self req = Ok sel
    /\ WinRateAgent.execute (winrate_agent self) (final_context sel) = Ok final_winrate
    /\ floor r = py_round (RulesAgent.floor_price (s_rules_result sel)) 2
    /\ target r = py_round (price (s_target_candidate sel)) 2
    /\ stretch r = py_round (s_stretch_price sel) 2
    /\ p_win_at_target r = WinRateAgent.win_probability final_winrate.
Proof.
  unfold recommend_price. intros H.
  apply bind_Ok in H as (sel & Es & H). cbv beta zeta in H.
  apply bind_Ok in H as (fw & Ew & H). cbv beta in H.
  apply bind_Ok in H as (cogs & Ec & H). cbv beta in H.
  apply Ok_inj in H. subst r. exists sel, fw.
  split; [exact Es |]. split; [exact Ew |].
  cbn [floor target stretch p_win_at_target].
  split; [reflexivity |]. split; [reflexivity |]. split; reflexivity.
Qed.

Lemma recommend_price_total (self : t) (req : Request) :
  Spec.usable (WinRateAgent.model (winrate_agent self)) ->
  exists r, recommend_price self req = Ok r.
Proof.
  intros Hu.
  destruct (select_prices_total self req Hu) as [sel Hsel].
  destruct (execute_np_total (winrate_agent self) (final_context sel)
              (price (s_target_candidate sel)) Hu eq_refl) as [w Hw].
  pose proof Hsel as Hinv.
  apply select_prices_Ok in Hinv as (context0 & E0 & _ & Ectx & _).
  destruct (enrich_context_Ok self req) as (context0' & E0' & _ & Hc & _).
  rewrite E0 in E0'. injection E0' as <-.
  assert (Hcogs : getitem_cogs (s_context sel) = Ok (Spec.enriched_cogs self req)).
  { unfold getitem_cogs. rewrite Ectx. unfold update_rules. simpl. now rewrite Hc. }
  eexists. unfold recommend_price.
  apply bind_Ok. exists sel. split; [exact Hsel |]. cbv beta zeta.
  apply bind_Ok. exists w. split; [exact Hw |]. cbv beta.
  apply bind_Ok. eexists. split; [exact Hcogs |]. cbv beta.
  reflexivity.
Qed.

End GridSearch.

(** ** The recommendation: grid, target and stretch *)

Section Recommend.

Import Orchestrator.

(** The grid of a selection: its size, its points and its order. *)
Lemma selection_grid (self : t) (req : Request) (sel : Selection) :
  select_prices self req = Ok sel ->
  let floor_price := RulesAgent.floor_price (s_rules_result sel) in
  let ceiling_price := RulesAgent.ceiling_price (s_rules_result sel) in
  let grid := s_price_candidates sel in
  length grid = 20%nat
  /\ (forall i : nat, (i < 20)%nat ->
        exists p, grid !! i = Some p
                  /\ p == floor_price
                          + inject_Z (Z.of_nat i) * ((ceiling_price - floor_price) / 19))
  /\ (exists p0, grid !! 0%nat = Some p0 /\ p0 == floor_price)
  /\ grid !! 19%nat = Some ceiling_price
  /\ (forall (i : nat) x y, grid !! i = Some x -> grid !! S i = Some y ->
        y - x == (ceiling_price - floor_price) / 19)
  /\ (floor_price <= ceiling_price -> ascending grid = true)
  /\ (floor_price <= ceiling_price ->
        forall p, p ∈ grid -> floor_price <= p <= ceiling_price).
Proof.
  intros H. apply select_prices_Ok in H as (_ & _ & _ & _ & Eg & _).
  cbv zeta. rewrite Eg.
  set (f := RulesAgent.floor_price (s_rules_result sel)).
  set (c := RulesAgent.ceiling_price (s_rules_result sel)).
  split; [apply length_linspace |]. split; [| split; [| split; [| split; [| split]]]].
  - intros i Hi. destruct (lookup_linspace_total f c 20 i Hi) as [p Hp].
    exists p. split; [exact Hp |].
    apply lookup_linspace in Hp as [_ Hp]; [exact Hp | lia].
  - destruct (lookup_linspace_total f c 20 0) as [p Hp]; [lia |].
    exists p. split; [exact Hp |].
    apply lookup_linspace in Hp as [_ Hp]; [| lia].
    rewrite Hp. apply grid_point_first.
  - reflexivity.
  - intros i x y Hx Hy. apply (linspace_consecutive f c 20 i x y); [lia | | ]; assumption.
  - intros Hle. apply linspace_ascending; [lia | exact Hle].
  - intros Hle p Hp. apply (linspace_bounds f c 20); [lia | exact Hle | exact Hp].
Qed.

(** C1 as stated fails on the order of the grid: with a policy row whose
    floor (2.5 x cogs = 200) lies above its ceiling (2 x cogs = 160) the
    recommendation is computed on a grid that descends from 200 to 160. *)
Lemma C1_grid_can_descend :
  let self := Demo.with_policy Demo.inconsistent_policy Demo.model in
  exists r sel,
    recommend_price self (Demo.request "SKU-001") = Ok r
    /\ select_prices self (Demo.request "SKU-001") = Ok sel
    /\ RulesAgent.floor_price (s_rules_result sel) == 200
    /\ RulesAgent.ceiling_price (s_rules_result sel) == 160
    /\ ascending (s_price_candidates sel) = false.
Proof.
  cbv zeta. eexists. eexists.
  split; [vm_compute; reflexivity |].
  split; [vm_compute; reflexivity |].
  split; [reflexivity |]. split; [reflexivity |].
  vm_compute. reflexivity.
Qed.

(** C1, amended: recommend builds a grid of exactly 20 equally spaced
    candidate prices from floor_price to ceiling_price inclusive, ascending
    whenever floor_price <= ceiling_price; it computes
    expected_margin = (price - cogs) * win_probability for every candidate,
    the win probability being the win-rate agent's at that candidate; and
    the target price is the price of the first candidate in grid order that
    attains the maximal expected_margin, returned rounded to 2 decimals. *)
Theorem C1_grid_and_target (self : t) (req : Request) (r : Recommendation) :
  recommend_price self req = Ok r ->
  exists sel cogs,
    select_prices self req = Ok sel
    /\ Ctx.cogs (s_context sel) = Some cogs
    /\ let floor_price := RulesAgent.floor_price (s_rules_result sel) in
       let ceiling_price := RulesAgent.ceiling_price (s_rules_result sel) in
       let grid := s_price_candidates sel in
       let scores := s_candidate_scores sel in
       length grid = 20%nat
       /\ (forall i : nat, (i < 20)%nat ->
             exists p, grid !! i = Some p
                       /\ p == floor_price
                               + inject_Z (Z.of_nat i)
                                 * ((ceiling_price - floor_price) / 19))
       /\ (exists p0, grid !! 0%nat = Some p0 /\ p0 == floor_price)
       /\ grid !! 19%nat = Some ceiling_price
       /\ (forall (i : nat) x y, grid !! i = Some x -> grid !! S i = Some y ->
             y - x == (ceiling_price - floor_price) / 19)
       /\ (floor_price <= ceiling_price -> ascending grid = true)
       /\ price <$> scores = grid
       /\ (forall c, c ∈ scores ->
             exists w,
               WinRateAgent.execute (winrate_agent self)
                 (candidate_context (s_context sel) (price c)) = Ok w
               /\ win_probability c = WinRateAgent.win_probability w
               /\ expected_margin c = (price c - cogs) * win_probability c)
       /\ Spec.first_max expected_margin scores (s_target_candidate sel)
       /\ target r = py_round (price (s_target_candidate sel)) 2.
Proof.
  intros H.
  apply recommend_price_Ok in H as (sel & fw & Hsel & _ & _ & Ht & _).
  pose proof (selection_grid self req sel Hsel) as (G1 & G2 & G3 & G4 & G5 & G6 & _).
  pose proof Hsel as Hinv.
  apply select_prices_Ok in Hinv as (context0 & E0 & _ & Ectx & _ & Es & Etc & _).
  destruct (enrich_context_Ok self req) as (context0' & E0' & _ & Hc & _).
  rewrite E0 in E0'. injection E0' as <-.
  exists sel, (Spec.enriched_cogs self req).
  split; [exact Hsel |]. split.
  { rewrite Ectx. unfold update_rules. simpl. exact Hc. }
  cbv zeta. repeat (split; [assumption |]).
  split; [eapply candidate_prices, Es |]. split; [| split].
  - intros c Hcs.
    destruct (candidate_elem _ _ _ _ c Es Hcs) as [_ Hsc].
    apply score_candidate_Ok in Hsc as (w & cogs & Hw & Hcogs & _ & Hwin & Hem).
    exists w. split; [exact Hw |]. split; [exact Hwin |].
    assert (cogs = Spec.enriched_cogs self req) as <-.
    { rewrite Ectx in Hcogs. unfold update_rules in Hcogs. simpl in Hcogs.
      rewrite Hc in Hcogs. now injection Hcogs. }
    now rewrite Hwin.
  - apply py_max_by_first_max, Etc.
  - exact Ht.
Qed.

Lemma C1_grid_and_target_witness :
  exists r sel,
    recommend_price Demo.orchestrator (Demo.request "SKU-001") = Ok r
    /\ select_prices Demo.orchestrator (Demo.request "SKU-001") = Ok sel
    /\ Spec.first_max expected_margin (s_candidate_scores sel) (s_target_candidate sel)
    /\ target r == 118.32.
Proof.
  destruct (recommend_price Demo.orchestrator (Demo.request "SKU-001"))
    as [r | msg] eqn:E; [| vm_compute in E; discriminate].
  destruct (C1_grid_and_target Demo.orchestrator (Demo.request "SKU-001") r E)
    as (sel & cogs & Hsel & _ & _ & _ & _ & _ & _ & _ & _ & _ & Hmax & Ht).
  exists r, sel. split; [reflexivity |]. split; [exact Hsel |].
  split; [exact Hmax |].
  vm_compute in E. injection E as <-. reflexivity.
Defined.

(** Rounding to 2 decimals keeps a price within the policy bounds, which
    are themselves rounded to 2 decimals. *)
Lemma rules_bounds_round (self : RulesAgent.t) (context : Context) (x : Q) :
  let result := RulesAgent.execute self context in
  RulesAgent.floor_price result <= x <= RulesAgent.ceiling_price result ->
  RulesAgent.floor_price result <= py_round x 2 <= RulesAgent.ceiling_price result.
Proof. cbv zeta. unfold RulesAgent.execute. simpl. apply py_round_between. Qed.

(** The stretch price of a selection. *)
Lemma selection_stretch (self : t) (req : Request) (sel : Selection) :
  select_prices self req = Ok sel ->
  let scores := s_candidate_scores sel in
  ((forall c, c ∈ scores -> ~ 0.2 < win_probability c) ->
     s_stretch_price sel = RulesAgent.ceiling_price (s_rules_result sel))
  /\ ((exists c, c ∈ scores /\ 0.2 < win_probability c) ->
      exists c, c ∈ scores /\ 0.2 < win_probability c
                /\ s_stretch_price sel = price c
                /\ forall c', c' ∈ scores -> 0.2 < win_probability c' ->
                              price c' <= price c).
Proof.
  intros H. apply select_prices_Ok in H as (_ & _ & _ & _ & _ & _ & _ & Hst).
  cbv zeta.
  set (viable := filter (fun c => Qgtb (win_probability c) 0.2) (s_candidate_scores sel)) in *.
  assert (Hv : forall c, c ∈ viable <-> 0.2 < win_probability c /\ c ∈ s_candidate_scores sel).
  { intros c. unfold viable. rewrite list_elem_of_filter.
    rewrite Is_true_true, Qgtb_true. reflexivity. }
  split.
  - intros Hnone. destruct viable as [| v vs]; [exact Hst |].
    exfalso. destruct (proj1 (Hv v)) as [Hw Hin]; [left |]. now apply (Hnone v).
  - intros (c & Hc & Hw).
    destruct viable as [| v vs] eqn:Ev.
    { exfalso. assert (Hin : c ∈ ([] : list Candidate)) by (apply Hv; now split).
      now apply not_elem_of_nil in Hin. }
    destruct Hst as (c0 & Hmax & ->).
    apply py_max_by_first_max in Hmax.
    pose proof (first_max_elem _ _ _ Hmax) as Hin0.
    apply Hv in Hin0 as [Hw0 Hs0].
    exists c0. repeat split; [assumption | assumption |].
    intros c' Hc' Hw'. destruct Hmax as (_ & _ & Hall & _).
    apply Hall, Hv. now split.
Qed.

(** With floor_price <= ceiling_price the target and the stretch price
    of a selection lie between the two. *)
Lemma selection_bounds (self : t) (req : Request) (sel : Selection) :
  select_prices self req = Ok sel ->
  let floor_price := RulesAgent.floor_price (s_rules_result sel) in
  let ceiling_price := RulesAgent.ceiling_price (s_rules_result sel) in
  floor_price <= ceiling_price ->
  floor_price <= price (s_target_candidate sel) <= ceiling_price
  /\ floor_price <= s_stretch_price sel <= ceiling_price.
Proof.
  intros Hsel. cbv zeta. intros Hle.
  pose proof (selection_stretch self req sel Hsel) as [S1 S2]. cbv zeta in S1, S2.
  pose proof (selection_grid self req sel Hsel) as (_ & _ & _ & _ & _ & _ & Gb).
  cbv zeta in Gb.
  pose proof Hsel as Hinv.
  apply select_prices_Ok in Hinv as (context0 & _ & Er & _ & _ & Es & Etc & _).
  assert (Hin : forall c, c ∈ s_candidate_scores sel ->
                  RulesAgent.floor_price (s_rules_result sel) <= price c
                  <= RulesAgent.ceiling_price (s_rules_result sel)).
  { intros c Hc. apply (Gb Hle).
    now destruct (candidate_elem _ _ _ _ c Es Hc). }
  split.
  { apply Hin. eapply first_max_elem, py_max_by_first_max, Etc. }
  destruct (filter (fun c => Qgtb (win_probability c) 0.2) (s_candidate_scores sel))
    as [| v vs] eqn:Ev.
  - rewrite S1.
    + split; [exact Hle | apply Qle_refl].
    + intros c Hc Hw.
      assert (Hv : c ∈ filter (fun c => Qgtb (win_probability c) 0.2)
                        (s_candidate_scores sel)).
      { apply list_elem_of_filter. split; [| exact Hc].
        now apply Is_true_true, Qgtb_true. }
      rewrite Ev in Hv. now apply not_elem_of_nil in Hv.
  - assert (Hv : v ∈ filter (fun c => Qgtb (win_probability c) 0.2)
                        (s_candidate_scores sel)) by (rewrite Ev; left).
    apply list_elem_of_filter in Hv as [Hw Hv].
    apply Is_true_true, Qgtb_true in Hw.
    destruct S2 as (c & Hc & _ & -> & _); [now exists v |].
    now apply Hin.
Qed.

(** C2: the stretch price is the highest price among the candidates whose
    win probability exceeds 0.2, and the ceiling price when there is none;
    when floor_price <= ceiling_price, target and stretch lie within
    [floor_price, ceiling_price], before and after the final rounding to 2
    decimals. *)
Theorem C2_stretch_and_bounds (self : t) (req : Request) (r : Recommendation) :
  recommend_price self req = Ok r ->
  exists sel,
    select_prices self req = Ok sel
    /\ let floor_price := RulesAgent.floor_price (s_rules_result sel) in
       let ceiling_price := RulesAgent.ceiling_price (s_rules_result sel) in
       let scores := s_candidate_scores sel in
       let target_price := price (s_target_candidate sel) in
       let stretch_price := s_stretch_price sel in
       ((forall c, c ∈ scores -> ~ 0.2 < win_probability c) ->
          stretch_price = ceiling_price)
       /\ ((exists c, c ∈ scores /\ 0.2 < win_probability c) ->
           exists c, c ∈ scores /\ 0.2 < win_probability c
                     /\ stretch_price = price c
                     /\ forall c', c' ∈ scores -> 0.2 < win_probability c' ->
                                   price c' <= price c)
       /\ price <$> scores = s_price_candidates sel
       /\ target r = py_round target_price 2
       /\ stretch r = py_round stretch_price 2
       /\ (floor_price <= ceiling_price ->
           floor_price <= target_price <= ceiling_price
           /\ floor_price <= stretch_price <= ceiling_price
           /\ floor_price <= target r <= ceiling_price
           /\ floor_price <= stretch r <= ceiling_price).
Proof.
  intros H.
  apply recommend_price_Ok in H as (sel & fw & Hsel & _ & _ & Ht & Hs & _).
  exists sel. split; [exact Hsel |]. cbv zeta.
  pose proof (selection_stretch self req sel Hsel) as [S1 S2]. cbv zeta in S1, S2.
  pose proof Hsel as Hinv.
  apply select_prices_Ok in Hinv as (context0 & _ & Er & _ & _ & Es & Etc & _).
  split; [exact S1 |]. split; [exact S2 |].
  split; [eapply candidate_prices, Es |].
  split; [exact Ht |]. split; [exact Hs |].
  intros Hle.
  destruct (selection_bounds self req sel Hsel Hle) as [Htp Hsp].
  split; [exact Htp |]. split; [exact Hsp |].
  rewrite Ht, Hs, Er. split; apply rules_bounds_round; rewrite <- Er; assumption.
Qed.

Lemma C2_stretch_and_bounds_witness :
  exists r sel,
    recommend_price Demo.orchestrator (Demo.request "SKU-001") = Ok r
    /\ select_prices Demo.orchestrator (Demo.request "SKU-001") = Ok sel
    /\ RulesAgent.floor_price (s_rules_result sel) <= target r
       <= RulesAgent.ceiling_price (s_rules_result sel)
    /\ RulesAgent.floor_price (s_rules_result sel) <= stretch r
       <= RulesAgent.ceiling_price (s_rules_result sel).
Proof.
  destruct (recommend_price Demo.orchestrator (Demo.request "SKU-001"))
    as [r | msg] eqn:E; [| vm_compute in E; discriminate].
  destruct (C2_stretch_and_bounds Demo.orchestrator (Demo.request "SKU-001") r E)
    as (sel & Hsel & _ & _ & _ & _ & _ & Hb).
  exists r, sel. split; [reflexivity |]. split; [exact Hsel |].
  cbv zeta in Hb.
  assert (Hle : RulesAgent.floor_price (s_rules_result sel)
                <= RulesAgent.ceiling_price (s_rules_result sel)).
  { clear - Hsel. vm_compute in Hsel. injection Hsel as <-. vm_compute. discriminate. }
  destruct (Hb Hle) as (_ & _ & Ht & Hs). split; assumption.
Defined.

End Recommend.

(** ** The win curve *)

Section Curve.

Import Orchestrator.

Lemma pow10_2 : 1 / pow10 2 == 0.01.
Proof. reflexivity. Qed.




End Curve.

(** ** Enrichment defaults, the boundary, and the scoring baseline *)

Section Boundary.

Import Orchestrator.

(** C8: the enrichment returns a context for every request and every
    state of the reference tables (a missing product, customer or cost row
    raises nothing); each of product_family, cogs, customer_segment and
    region is the looked-up value when the lookup finds a row and the
    default "Widgets", 80.0, "Enterprise", "EMEA" otherwise;
    competitor_price is cogs * 1.3; and the contexts the pipeline builds
    afterwards carry the same five values. *)
Theorem C8_enrichment_defaults (self : t) (req : Request) :
  exists context,
    _enrich_context self req = Ok context
    /\ Ctx.product_family context
       = Some (match product_row self req with
               | Some row => ProductRow.family row
               | None => "Widgets"%string
               end)
    /\ Ctx.cogs context
       = Some (match product_row self req with
               | Some row =>
                   match cogs_row self (ProductRow.product_id row) with
                   | Some crow => CogsRow.cogs crow
                   | None => 80.0
                   end
               | None => 80.0
               end)
    /\ Ctx.customer_segment context
       = Some (match customer_row self req with
               | Some row => CustomerRow.segment row
               | None => "Enterprise"%string
               end)
    /\ Ctx.region context
       = Some (match customer_row self req with
               | Some row => CustomerRow.region row
               | None => "EMEA"%string
               end)
    /\ (exists cogs, Ctx.cogs context = Some cogs
                     /\ Ctx.competitor_price context = Some (cogs * 1.3))
    /\ (forall sel, select_prices self req = Ok sel ->
          Spec.same_enrichment context (s_context sel)
          /\ Spec.same_enrichment context (final_context sel)
          /\ forall p, Spec.same_enrichment context
                         (candidate_context (s_context sel) p))
    /\ (forall p context', score_context self req p = Ok context' ->
          Spec.same_enrichment context context').
Proof.
  destruct (enrich_context_Ok self req)
    as (context & E0 & Hf & Hc & Hs & Hr & Hcp & _).
  exists context. split; [exact E0 |].
  split; [exact Hf |]. split; [exact Hc |]. split; [exact Hs |]. split; [exact Hr |].
  split; [eauto |]. split.
  - intros sel Hsel.
    apply select_prices_Ok in Hsel as (context0 & E0' & _ & Ectx & _).
    rewrite E0 in E0'. injection E0' as <-.
    unfold final_context, candidate_context. rewrite Ectx.
    repeat split; reflexivity.
  - intros p context' H. unfold score_context in H. rewrite E0 in H.
    simpl in H. injection H as <-. repeat split; reflexivity.
Qed.

(** A loop raises as soon as its body raises on some element. *)
Lemma for_each_Raise {A B : Type} (body : A -> Exc B) (l : list A) (x : A) (msg : string) :
  x ∈ l -> body x = Raise msg -> exists msg', for_each body l = Raise msg'.
Proof.
  induction l as [| y ys IH]; intros Hx Hb.
  - now apply not_elem_of_nil in Hx.
  - simpl. destruct (body y) as [b | msg'] eqn:Ey; simpl; [| eauto].
    apply elem_of_cons in Hx as [-> | Hx]; [congruence |].
    destruct (IH Hx Hb) as [msg' ->]. simpl. eauto.
Qed.

(** C9: whatever is raised inside the recommend pipeline, the boundary
    returns the error dictionary carrying the message; its result is either
    a complete Recommendation, when the pipeline returned one, or exactly
    the error form, never anything in between. *)
Theorem C9_boundary (orchestrator : t) (req : Request) :
  let response := ModelService.recommend orchestrator req in
  ((exists r, recommend_price orchestrator req = Ok r
              /\ response = ModelService.Result r)
   \/ (exists msg, recommend_price orchestrator req = Raise msg
                   /\ response = ModelService.Error msg))
  /\ (forall msg, recommend_price orchestrator req = Raise msg ->
        response = ModelService.Error msg)
  /\ (forall msg, select_prices orchestrator req = Raise msg ->
        response = ModelService.Error msg)
  /\ (forall context p msg,
        _enrich_context orchestrator req = Ok context ->
        let rules_result := RulesAgent.execute (rules_agent orchestrator) context in
        p ∈ linspace (RulesAgent.floor_price rules_result)
                     (RulesAgent.ceiling_price rules_result) 20 ->
        WinRateAgent.execute (winrate_agent orchestrator)
          (candidate_context (update_rules rules_result context) p) = Raise msg ->
        exists msg', response = ModelService.Error msg')
  /\ (forall sel msg,
        select_prices orchestrator req = Ok sel ->
        WinRateAgent.execute (winrate_agent orchestrator) (final_context sel)
        = Raise msg ->
        response = ModelService.Error msg).
Proof.
  cbv zeta. unfold ModelService.recommend, ModelService.try_except.
  split; [| split; [| split; [| split]]].
  - destruct (recommend_price orchestrator req) as [r | msg]; eauto.
  - now intros msg ->.
  - intros msg H. unfold recommend_price. now rewrite H.
  - intros context p msg E0 Hp Hw.
    assert (Hs : exists msg', select_prices orchestrator req = Raise msg').
    { destruct (for_each_Raise
                  (score_candidate orchestrator
                     (update_rules (RulesAgent.execute (rules_agent orchestrator) context)
                        context))
                  _ p msg Hp) as [msg' Hfe].
      { unfold score_candidate. cbv zeta. now rewrite Hw. }
      exists msg'. unfold select_prices. rewrite E0, bind_Ok_l. cbv beta zeta.
      now apply bind_Raise. }
    destruct Hs as [msg' Hs]. exists msg'.
    unfold recommend_price. now rewrite Hs.
  - intros sel msg Hsel Hw. unfold recommend_price.
    rewrite Hsel, bind_Ok_l. cbv beta zeta. now rewrite Hw.
Qed.

Lemma C9_boundary_witness :
  ModelService.recommend (Demo.with_policy [] Demo.broken_model)
    (Demo.request "SKU-001")
  = ModelService.Error "classifier unavailable".
Proof.
  apply (C9_boundary (Demo.with_policy [] Demo.broken_model) (Demo.request "SKU-001")).
  vm_compute. reflexivity.
Defined.

End Boundary.

(** ** Scoring a proposed price *)

Section Score.

Import Orchestrator.
Import ElasticityAgent.

Lemma score_context_Ok (self : t) (req : Request) (p : Q) :
  exists context0,
    _enrich_context self req = Ok context0
    /\ score_context self req p = Ok (Ctx.set_proposed_price (Py p) context0)
    /\ Ctx.quantity context0 = Some (quantity req)
    /\ Ctx.target_price context0 = None
    /\ Ctx.current_price context0 = None.
Proof.
  destruct (enrich_context_Ok self req)
    as (context0 & E0 & _ & _ & _ & _ & _ & Hq & _ & Ht & Hc).
  exists context0. unfold score_context. rewrite E0. repeat split; assumption.
Qed.

(** A proposed price of 0 is never scored: the win-rate agent divides by
    the list price it derives from it. *)
Lemma score_price_zero_raises (self : t) (req : Request) :
  score_price self req 0 = Raise "float division by zero".
Proof.
  destruct (score_context_Ok self req 0) as (context0 & _ & Hs & _).
  unfold score_price. rewrite Hs, bind_Ok_l. cbv beta zeta.
  rewrite (execute_py_zero (winrate_agent self) _ 0); reflexivity.
Qed.

(** When [score_price] returns, its third reason is the elasticity
    agent's reported demand change on the scoring context. *)
Lemma score_price_reason (self : t) (req : Request) (p : Q) (r : ScoreResult) :
  score_price self req p = Ok r ->
  exists context,
    score_context self req p = Ok context
    /\ sr_reasons r !! 2%nat
       = Some (Msg "Elasticity impact: {:+.1%}"
                 [ANum (r_demand_change_pct (execute context))]).
Proof.
  unfold score_price. intros Hr.
  apply bind_Ok in Hr as (context & Hc & Hr). cbv beta zeta in Hr.
  apply bind_Ok in Hr as (w & _ & Hr). cbv beta in Hr.
  apply bind_Ok in Hr as (cogs & _ & Hr). cbv beta in Hr.
  apply Ok_inj in Hr. exists context. split; [exact Hc |].
  rewrite <- Hr. reflexivity.
Qed.

(** Two scoring contexts with the same segment, region and quantity
    report the same demand change for the same proposed price. *)
Lemma score_demand_independent (self self' : t) (req req' : Request) (p : Q)
    (context context' : Context) :
  score_context self req p = Ok context ->
  score_context self' req' p = Ok context' ->
  Ctx.customer_segment context' = Ctx.customer_segment context ->
  Ctx.region context' = Ctx.region context ->
  quantity req' = quantity req ->
  r_demand_change_pct (execute context') = r_demand_change_pct (execute context).
Proof.
  intros Hs Hs' Hseg Hreg Hqty.
  destruct (score_context_Ok self req p) as (c0 & _ & E & Hq & Ht & Hc).
  destruct (score_context_Ok self' req' p) as (c0' & _ & E' & Hq' & Ht' & Hc').
  rewrite E in Hs. apply Ok_inj in Hs.
  rewrite E' in Hs'. apply Ok_inj in Hs'.
  assert (F1 : Ctx.quantity context' = Ctx.quantity context).
  { rewrite <- Hs, <- Hs'. change (Ctx.quantity c0' = Ctx.quantity c0). congruence. }
  assert (F2 : Ctx.current_price context' = Ctx.current_price context).
  { rewrite <- Hs, <- Hs'.
    change (Ctx.current_price c0' = Ctx.current_price c0). congruence. }
  assert (F3 : Ctx.target_price context' = Ctx.target_price context).
  { rewrite <- Hs, <- Hs'.
    change (Ctx.target_price c0' = Ctx.target_price c0). congruence. }
  assert (F4 : Ctx.proposed_price context' = Ctx.proposed_price context).
  { rewrite <- Hs, <- Hs'. reflexivity. }
  change (py_round (demand_change_pct (vars context')) 3
          = py_round (demand_change_pct (vars context)) 3).
  f_equal. now apply demand_change_pct_inputs.
Qed.




End Score.

(** * Further properties of the agents *)

(** ** Policy bounds and approval bands *)

Section RulesFurther.



(** The band as a function of the price, for a positive cost. *)
Lemma approval_band_by_price (self : RulesAgent.t) (price cogs : Q)
    (context : Context) :
  0 < cogs ->
  let band := RulesAgent.get_approval_band self price cogs context in
  let result := RulesAgent.execute self context in
  let unrounded_floor := cogs * (1 + RulesAgent.min_margin_pct result) in
  (band = "REJECT"%string <-> price < unrounded_floor)
  /\ (band = "REVIEW"%string
      <-> unrounded_floor <= price /\ RulesAgent.ceiling_price result < price)
  /\ (band = "APPROVED"%string
      <-> unrounded_floor <= price <= RulesAgent.ceiling_price result).
Proof.
  intros Hc. cbv zeta.
  unfold RulesAgent.get_approval_band, RulesAgent.margin_pct. cbv zeta.
  rewrite (proj2 (Qgtb_true cogs 0) Hc).
  set (m := RulesAgent.min_margin_pct (RulesAgent.execute self context)).
  set (k := RulesAgent.ceiling_price (RulesAgent.execute self context)).
  assert (Hm : m <= (price - cogs) / cogs <-> cogs * (1 + m) <= price).
  { clearbody m k. split; intros H.
    - apply (Qmult_le_compat_r _ _ cogs) in H; [| lra].
      assert (E : (price - cogs) / cogs * cogs == price - cogs) by (field; lra).
      rewrite E in H. lra.
    - apply Qle_shift_div_l; [exact Hc | lra]. }
  destruct (Qgeb ((price - cogs) / cogs) m) eqn:E1.
  - apply Qgeb_true, Hm in E1.
    destruct (Qle_bool price k) eqn:E2.
    + apply Qle_bool_iff in E2.
      repeat split; try discriminate; intros; try lra; tauto.
    + assert (k < price).
      { apply Qnot_le_lt. intros H. apply Qle_bool_iff in H. congruence. }
      repeat split; try discriminate; intros; try lra; tauto.
  - apply Qgeb_false in E1.
    assert (price < cogs * (1 + m)).
    { apply Qnot_le_lt. intros H. apply Hm in H. lra. }
    repeat split; try discriminate; intros; try lra; tauto.
Qed.



End RulesFurther.

(** ** Demand and suggested price *)

Section ElasticityFurther.

Import ElasticityAgent.

Lemma vars_suggested_price (context : Context) :
  suggested_price (vars context)
  = if Qltb (adjusted_elasticity (vars context)) (-1)
    then default (current_price (vars context) * 0.7) (Ctx.cogs context)
         / (1 - -1 / (adjusted_elasticity (vars context) + 1))
    else current_price (vars context).
Proof. reflexivity. Qed.

Lemma vars_revenue_change_pct (context : Context) :
  revenue_change_pct (vars context)
  = let quantity := inject_Z (default 10%Z (Ctx.quantity context)) in
    let current_revenue := current_price (vars context) * quantity in
    let new_revenue := proposed_price (vars context) * new_quantity (vars context) in
    if Qgtb current_revenue 0 then (new_revenue - current_revenue) / current_revenue
    else 0.
Proof. reflexivity. Qed.

Lemma new_quantity_at_least_one_rounded (context : Context) :
  1 <= r_new_quantity_estimate (execute context).
Proof.
  assert (H : 1 <= new_quantity (vars context)).
  { rewrite vars_new_quantity.
    destruct (py_max2_spec 1 (inject_Z (default 10%Z (Ctx.quantity context))
                              * (1 + demand_change_pct (vars context))))
      as [[Hlt ->] | [_ ->]]; [now apply Qlt_le_weak | apply Qle_refl]. }
  change (1 <= py_round (new_quantity (vars context)) 1).
  apply (py_round_mono _ _ 1) in H.
  assert (E : py_round 1 1 == 1) by reflexivity.
  rewrite E in H. exact H.
Qed.

(** X3: The estimated quantity never falls below one unit, before or after
    rounding. *)
Theorem new_quantity_at_least_one (context : Context) :
  1 <= new_quantity (vars context)
  /\ 1 <= r_new_quantity_estimate (execute context).
Proof.
  assert (H : 1 <= new_quantity (vars context)).
  { rewrite vars_new_quantity.
    destruct (py_max2_spec 1 (inject_Z (default 10%Z (Ctx.quantity context))
                              * (1 + demand_change_pct (vars context))))
      as [[Hlt ->] | [_ ->]]; [now apply Qlt_le_weak | apply Qle_refl]. }
  split; [exact H |].
  change (1 <= py_round (new_quantity (vars context)) 1).
  apply (py_round_mono _ _ 1) in H.
  assert (E : py_round 1 1 == 1) by reflexivity.
  rewrite E in H. exact H.
Qed.

(** With a non-negative quantity the elasticity stays within the table's
    range. *)
Lemma adjusted_elasticity_lower (context : Context) :
  (0 <= default 10 (Ctx.quantity context))%Z ->
  -1.8 <= adjusted_elasticity (vars context).
Proof.
  intros Hq. rewrite vars_adjusted_elasticity.
  assert (Hv : 0 <= volume_factor (vars context)).
  { rewrite vars_volume_factor.
    assert (Hx : 0 <= inject_Z (default 10%Z (Ctx.quantity context)) / 20.0).
    { apply Qle_shift_div_l; [reflexivity |]. rewrite Qmult_0_l.
      replace 0 with (inject_Z 0) by reflexivity. now rewrite <- Zle_Qle. }
    destruct (py_min2_spec 1.0 (inject_Z (default 10%Z (Ctx.quantity context)) / 20.0))
      as [[_ ->] | [_ ->]]; [exact Hx | lra]. }
  set (vf := volume_factor (vars context)) in *. clearbody vf.
  destruct (params_of_cases context) as [E | [E | [E | [E | E]]]];
    rewrite E; simpl; lra.
Qed.

(** X4: In the elastic regime (elasticity below -1) the suggested price is
    cogs * (e + 1) / (e + 2); for a non-negative quantity and a positive
    cost it is negative, and so the returned value is never positive.
    Otherwise the suggested price is the current price. *)
Theorem suggested_price_elastic (context : Context) :
  let v := vars context in
  let e := adjusted_elasticity v in
  let cogs := default (current_price v * 0.7) (Ctx.cogs context) in
  (e < -1 ->
     suggested_price v == cogs * (e + 1) / (e + 2)
     /\ ((0 <= default 10 (Ctx.quantity context))%Z -> 0 < cogs ->
           suggested_price v < 0 /\ r_suggested_price (execute context) <= 0))
  /\ (-1 <= e -> suggested_price v = current_price v).
Proof.
  cbv zeta. rewrite vars_suggested_price.
  set (e := adjusted_elasticity (vars context)).
  set (cogs := default (current_price (vars context) * 0.7) (Ctx.cogs context)).
  split.
  - intros He. rewrite (proj2 (Qltb_true e (-1)) He).
    pose proof (adjusted_elasticity_not_minus_2 context) as Hne. fold e in Hne.
    assert (Hform : cogs / (1 - -1 / (e + 1)) == cogs * (e + 1) / (e + 2)).
    { clearbody e cogs. field. split; [| lra].
      intros H. apply Hne. lra. }
    split; [exact Hform |]. intros Hq Hc.
    pose proof (adjusted_elasticity_lower context Hq) as Hlo. fold e in Hlo.
    assert (Hneg : cogs / (1 - -1 / (e + 1)) < 0).
    { rewrite Hform. clearbody e cogs.
      assert (H2 : 0 < e + 2) by lra.
      apply Qlt_shift_div_r; [exact H2 |]. nra. }
    split; [exact Hneg |].
    assert (E : r_suggested_price (execute context)
                = py_round (suggested_price (vars context)) 2) by reflexivity.
    rewrite E, vars_suggested_price. fold e.
    rewrite (proj2 (Qltb_true e (-1)) He). fold cogs.
    apply py_round_nonpos. now apply Qlt_le_weak.
  - intros He. now rewrite (proj2 (Qltb_false e (-1)) He).
Qed.

Lemma suggested_price_elastic_witness :
  suggested_price (vars (Ctx.set_cogs 80 (Demo.pricing_context 10 100 110))) < 0.
Proof.
  destruct (suggested_price_elastic (Ctx.set_cogs 80 (Demo.pricing_context 10 100 110)))
    as [H _].
  destruct H as [_ H]; [reflexivity |].
  destruct H as [H _]; [simpl; lia | reflexivity | exact H].
Defined.

(** Equal current and proposed price: every change is 0. *)
Lemma same_price_no_impact (context : Context) :
  proposed_price (vars context) = current_price (vars context) ->
  demand_change_pct (vars context) == 0
  /\ r_demand_change_pct (execute context) == 0
  /\ ((1 <= default 10 (Ctx.quantity context))%Z ->
        revenue_change_pct (vars context) == 0
        /\ r_revenue_change_pct (execute context) == 0).
Proof.
  intros Hp.
  assert (Hpc : price_change_pct (vars context) == 0).
  { rewrite vars_price_change_pct, Hp.
    destruct (Qgtb (current_price (vars context)) 0); [| reflexivity].
    unfold Qminus. rewrite Qplus_opp_r. unfold Qdiv. apply Qmult_0_l. }
  assert (Hd : demand_change_pct (vars context) == 0).
  { rewrite vars_demand_change_pct, Hpc. apply Qmult_0_r. }
  assert (R0 : py_round 0 3 == 0) by reflexivity.
  split; [exact Hd |]. split.
  { change (py_round (demand_change_pct (vars context)) 3 == 0).
    rewrite (py_round_comp _ _ Hd 3%nat 3%nat eq_refl). exact R0. }
  intros Hq.
  assert (Hr : revenue_change_pct (vars context) == 0).
  { rewrite vars_revenue_change_pct. cbv zeta. rewrite Hp, vars_new_quantity.
    set (q := inject_Z (default 10%Z (Ctx.quantity context))).
    assert (Hq1 : 1 <= q).
    { unfold q. replace 1 with (inject_Z 1) by reflexivity. now rewrite <- Zle_Qle. }
    assert (Hn : py_max2 1 (q * (1 + demand_change_pct (vars context))) == q).
    { destruct (py_max2_spec 1 (q * (1 + demand_change_pct (vars context))))
        as [[Hlt ->] | [Hle ->]].
      - rewrite Hd. ring.
      - rewrite Hd in Hle. clearbody q. lra. }
    destruct (Qgtb (current_price (vars context) * q) 0) eqn:Eg; [| reflexivity].
    apply Qgtb_true in Eg. rewrite Hn.
    unfold Qminus. rewrite Qplus_opp_r. unfold Qdiv. apply Qmult_0_l. }
  split; [exact Hr |].
  change (py_round (revenue_change_pct (vars context)) 3 == 0).
  rewrite (py_round_comp _ _ Hr 3%nat 3%nat eq_refl). exact R0.
Qed.

(** X5: When the proposed price is the current price the agent reports no
    change: demand change 0, and revenue change 0 once the quantity is at
    least 1 (below that, the one-unit minimum shows up as a revenue gain). *)
Theorem no_price_change_no_impact (context : Context) :
  proposed_price (vars context) = current_price (vars context) ->
  r_demand_change_pct (execute context) == 0
  /\ ((1 <= default 10 (Ctx.quantity context))%Z ->
        r_revenue_change_pct (execute context) == 0).
Proof.
  intros Hp. destruct (same_price_no_impact context Hp) as (_ & Hd & Hr).
  split; [exact Hd |]. intros Hq. now apply Hr.
Qed.

Lemma no_price_change_no_impact_witness :
  r_revenue_change_pct (execute (Demo.pricing_context 10 100 100)) == 0.
Proof.
  destruct (no_price_change_no_impact (Demo.pricing_context 10 100 100))
    as (_ & H); [reflexivity |].
  apply H. simpl. lia.
Defined.

End ElasticityFurther.

(** ** The recommendation, further *)

Section RecommendFurther.

Import Orchestrator.

(** The win-rate agent reads nine keys of the context and no other. *)
Lemma winrate_execute_ext (self : WinRateAgent.t) (c c' : Context) :
  Ctx.proposed_price c' = Ctx.proposed_price c ->
  Ctx.target_price c' = Ctx.target_price c ->
  Ctx.competitor_price c' = Ctx.competitor_price c ->
  Ctx.cogs c' = Ctx.cogs c ->
  Ctx.quantity c' = Ctx.quantity c ->
  Ctx.customer_segment c' = Ctx.customer_segment c ->
  Ctx.channel c' = Ctx.channel c ->
  Ctx.region c' = Ctx.region c ->
  Ctx.product_family c' = Ctx.product_family c ->
  WinRateAgent.execute self c' = WinRateAgent.execute self c.
Proof.
  intros H1 H2 H3 H4 H5 H6 H7 H8 H9. unfold WinRateAgent.execute.
  rewrite H1, H2, H3, H4, H5, H6, H7, H8, H9. reflexivity.
Qed.

(** The rules agent reads region, product family and cost; the keys the
    pipeline adds afterwards do not change its answer. *)
Lemma rules_execute_updated (self : RulesAgent.t) (r : RulesAgent.Result) (c : Context) :
  RulesAgent.execute self (update_rules r c) = RulesAgent.execute self c.
Proof. reflexivity. Qed.

(** Everything [recommend_price] returns, in terms of its local variables. *)
Lemma recommend_price_result (self : t) (req : Request) (r : Recommendation) :
  recommend_price self req = Ok r ->
  exists sel final_winrate cogs,
    select_prices self req = Ok sel
    /\ WinRateAgent.execute (winrate_agent self) (final_context sel) = Ok final_winrate
    /\ Ctx.cogs (s_context sel) = Some cogs
    /\ p_win_at_target r = WinRateAgent.win_probability final_winrate
    /\ reasons r !! 2%nat
       = Some (Msg "Policy compliance: {}"
                 [AStr (RulesAgent.get_approval_band (rules_agent self)
                          (price (s_target_candidate sel)) cogs (s_context sel))])
    /\ confidence_score r
       = _calculate_confidence final_winrate
           (ElasticityAgent.execute (final_context sel)) (s_rules_result sel).
Proof.
  unfold recommend_price. intros H.
  apply bind_Ok in H as (sel & Es & H). cbv beta zeta in H.
  apply bind_Ok in H as (fw & Ew & H). cbv beta in H.
  apply bind_Ok in H as (cogs & Ec & H). cbv beta in H.
  apply Ok_inj in H. exists sel, fw, cogs.
  split; [exact Es |]. split; [exact Ew |]. split.
  { unfold getitem_cogs in Ec. destruct (Ctx.cogs (s_context sel)); [| discriminate].
    now apply Ok_inj in Ec as ->. }
  rewrite <- H. cbn [p_win_at_target reasons confidence_score].
  split; [reflexivity |]. split; reflexivity.
Qed.

Lemma score_candidate_elasticity (self : t) (context : Context) (p : Q) (c : Candidate) :
  score_candidate self context p = Ok c ->
  elasticity_score c
  = ElasticityAgent.r_revenue_change_pct
      (ElasticityAgent.execute (candidate_context context p)).
Proof.
  unfold score_candidate, getitem_cogs. cbv zeta.
  destruct (WinRateAgent.execute _ _) as [w | msg]; [| discriminate].
  rewrite bind_Ok_l.
  destruct (Ctx.cogs context) as [cogs |]; [| discriminate].
  rewrite bind_Ok_l. intros H. apply Ok_inj in H. now rewrite <- H.
Qed.

(** X6: The elasticity agent adds nothing to the grid search: each candidate
    is evaluated with its own price as current price, so its elasticity
    score (the revenue change) is 0 whenever the quantity is at least 1. *)
Theorem candidates_elasticity_score_zero (self : t) (req : Request) (sel : Selection) :
  select_prices self req = Ok sel ->
  (1 <= quantity req)%Z ->
  forall c, c ∈ s_candidate_scores sel -> elasticity_score c == 0.
Proof.
  intros Hsel Hq c Hc.
  apply select_prices_Ok in Hsel as (context0 & E0 & _ & Ectx & _ & Es & _).
  destruct (enrich_context_Ok self req)
    as (context0' & E0' & _ & _ & _ & _ & _ & Hqty & _ & _ & Hcur).
  rewrite E0 in E0'. apply Ok_inj in E0'. subst context0'.
  destruct (candidate_elem _ _ _ _ c Es Hc) as [_ Hsc].
  rewrite (score_candidate_elasticity _ _ _ _ Hsc).
  set (cc := candidate_context (s_context sel) (price c)).
  assert (Hcc : Ctx.current_price cc = None).
  { unfold cc. rewrite Ectx. exact Hcur. }
  assert (Hqc : Ctx.quantity cc = Some (quantity req)).
  { unfold cc. rewrite Ectx. exact Hqty. }
  destruct (same_price_no_impact cc) as (_ & _ & H).
  - assert (Hpp : Ctx.proposed_price cc = Some (Np (price c))) by reflexivity.
    assert (Htt : Ctx.target_price cc = Some (Np (price c))) by reflexivity.
    rewrite vars_proposed_price, vars_current_price, Hcc, Hpp, Htt. reflexivity.
  - apply H. now rewrite Hqc.
Qed.

End RecommendFurther.

Section RecommendOutputs.

Import Orchestrator.

Lemma candidates_elasticity_score_zero_witness :
  exists sel,
    select_prices Demo.orchestrator (Demo.request "SKU-001") = Ok sel
    /\ forall c, c ∈ s_candidate_scores sel -> elasticity_score c == 0.
Proof.
  destruct (select_prices Demo.orchestrator (Demo.request "SKU-001"))
    as [sel | msg] eqn:E; [| vm_compute in E; discriminate].
  exists sel. split; [reflexivity |].
  apply (candidates_elasticity_score_zero Demo.orchestrator (Demo.request "SKU-001") sel E).
  simpl. lia.
Defined.

Lemma final_winrate_is_candidate (self : t) (req : Request) (r : Recommendation) :
  recommend_price self req = Ok r ->
  exists sel,
    select_prices self req = Ok sel
    /\ p_win_at_target r = win_probability (s_target_candidate sel).
Proof.
  intros H.
  apply recommend_price_result in H as (sel & fw & cogs & Hsel & Hfw & _ & Hp & _).
  exists sel. split; [exact Hsel |]. rewrite Hp.
  apply select_prices_Ok in Hsel as (_ & _ & _ & _ & _ & Es & Etc & _).
  apply py_max_by_first_max, first_max_elem in Etc.
  destruct (candidate_elem _ _ _ _ _ Es Etc) as [_ Hsc].
  apply score_candidate_Ok in Hsc as (w & _ & Hw & _ & _ & Hwin & _).
  rewrite Hwin.
  assert (E : WinRateAgent.execute (winrate_agent self) (final_context sel)
              = WinRateAgent.execute (winrate_agent self)
                  (candidate_context (s_context sel) (price (s_target_candidate sel)))).
  { apply winrate_execute_ext; reflexivity. }
  rewrite E, Hw in Hfw. apply Ok_inj in Hfw. now subst fw.
Qed.

(** X7: The probability reported at the target is the one the grid search
    found for the target candidate: the final re-evaluation sees the same
    nine keys. *)
Theorem p_win_at_target_is_candidate (self : t) (req : Request) (r : Recommendation) :
  recommend_price self req = Ok r ->
  exists sel,
    select_prices self req = Ok sel
    /\ p_win_at_target r = win_probability (s_target_candidate sel).
Proof. apply final_winrate_is_candidate. Qed.

Lemma p_win_at_target_is_candidate_witness :
  exists r sel,
    recommend_price Demo.orchestrator (Demo.request "SKU-001") = Ok r
    /\ select_prices Demo.orchestrator (Demo.request "SKU-001") = Ok sel
    /\ p_win_at_target r = win_probability (s_target_candidate sel).
Proof.
  destruct (recommend_price Demo.orchestrator (Demo.request "SKU-001"))
    as [r | msg] eqn:E; [| vm_compute in E; discriminate].
  destruct (p_win_at_target_is_candidate _ _ r E) as (sel & Hsel & Hp).
  exists r, sel. split; [reflexivity |]. split; assumption.
Defined.

(** X8: When the win probability at the target exceeds 0.2 the target does
    not exceed the stretch price, whatever the policy bounds. *)
Theorem target_le_stretch (self : t) (req : Request) (r : Recommendation) :
  recommend_price self req = Ok r ->
  0.2 < p_win_at_target r ->
  target r <= stretch r.
Proof.
  intros H Hp.
  destruct (final_winrate_is_candidate self req r H) as (sel & Hsel & Hwin).
  apply recommend_price_Ok in H as (sel' & _ & Hsel' & _ & _ & Ht & Hs & _).
  rewrite Hsel in Hsel'. apply Ok_inj in Hsel'. subst sel'.
  rewrite Ht, Hs. apply py_round_mono.
  destruct (selection_stretch self req sel Hsel) as [_ S2]. cbv zeta in S2.
  pose proof Hsel as Hinv.
  apply select_prices_Ok in Hinv as (_ & _ & _ & _ & _ & _ & Etc & _).
  apply py_max_by_first_max, first_max_elem in Etc.
  rewrite Hwin in Hp.
  destruct S2 as (c & _ & _ & -> & Hmax); [eauto |].
  now apply Hmax.
Qed.

Lemma target_le_stretch_witness :
  exists r,
    recommend_price Demo.orchestrator (Demo.request "SKU-001") = Ok r
    /\ target r <= stretch r.
Proof.
  destruct (recommend_price Demo.orchestrator (Demo.request "SKU-001"))
    as [r | msg] eqn:E; [| vm_compute in E; discriminate].
  exists r. split; [reflexivity |].
  apply (target_le_stretch Demo.orchestrator (Demo.request "SKU-001") r E).
  vm_compute in E. apply Ok_inj in E. subst r. reflexivity.
Defined.



(** X10: With floor_price <= ceiling_price the policy-compliance reason of a
    recommendation is APPROVED or REJECT, never REVIEW: the target never
    exceeds the ceiling. *)
Theorem recommendation_never_review (self : t) (req : Request) (r : Recommendation) :
  recommend_price self req = Ok r ->
  exists sel band,
    select_prices self req = Ok sel
    /\ reasons r !! 2%nat = Some (Msg "Policy compliance: {}" [AStr band])
    /\ (RulesAgent.floor_price (s_rules_result sel)
        <= RulesAgent.ceiling_price (s_rules_result sel) ->
        band = "APPROVED"%string \/ band = "REJECT"%string).
Proof.
  intros H.
  apply recommend_price_result in H as (sel & fw & cogs & Hsel & _ & _ & _ & Hr & _).
  exists sel. eexists. split; [exact Hsel |]. split; [exact Hr |].
  intros Hle. destruct (selection_bounds self req sel Hsel Hle) as ((_ & Hhi) & _).
  apply select_prices_Ok in Hsel as (context0 & _ & Er & Ectx & _).
  unfold RulesAgent.get_approval_band. cbv zeta.
  rewrite Ectx, rules_execute_updated, <- Er.
  apply Qle_bool_iff in Hhi. rewrite Hhi.
  destruct (Qgeb _ _); auto.
Qed.

Lemma recommendation_never_review_witness :
  exists r,
    recommend_price Demo.orchestrator (Demo.request "SKU-001") = Ok r
    /\ reasons r !! 2%nat = Some (Msg "Policy compliance: {}" [AStr "APPROVED"]).
Proof.
  destruct (recommend_price Demo.orchestrator (Demo.request "SKU-001"))
    as [r | msg] eqn:E; [| vm_compute in E; discriminate].
  destruct (recommendation_never_review Demo.orchestrator (Demo.request "SKU-001") r E)
    as (sel & band & _ & _ & _).
  exists r. split; [reflexivity |].
  vm_compute in E. apply Ok_inj in E. subst r. reflexivity.
Defined.

End RecommendOutputs.

(** ** Confidence *)

Section Confidence.

Import Orchestrator.

(** The three factors average to High, Medium or Low by this table:
    High when the win probability exceeds 0.6 and the elasticity is stable
    or APPROVED is configured, or when it exceeds 0.4 with both; Low when
    it is at most 0.6 with neither, or at most 0.4 without both; Medium
    otherwise. *)
Lemma calculate_confidence_cases (w : WinRateAgent.Result)
    (e : ElasticityAgent.Result) (rr : RulesAgent.Result) :
  let p := WinRateAgent.win_probability w in
  let stable := Qltb (py_abs (ElasticityAgent.r_price_elasticity e)) 2.0 in
  let approved := approved_in_str (RulesAgent.approval_bands rr) in
  _calculate_confidence w e rr
  = if Qgtb p 0.6 then (if stable || approved then "High" else "Medium")%string
    else if Qgtb p 0.4
         then (if stable && approved then "High"
               else if stable || approved then "Medium" else "Low")%string
         else (if stable && approved then "Medium" else "Low")%string.
Proof.
  cbv zeta. unfold _calculate_confidence. cbv zeta.
  destruct (Qgtb (WinRateAgent.win_probability w) 0.6);
    [| destruct (Qgtb (WinRateAgent.win_probability w) 0.4)];
    destruct (Qltb _ 2.0); destruct (approved_in_str _); reflexivity.
Qed.

(** X11: the confidence is High, Medium or Low; it is High exactly when
    the win probability exceeds 0.6 and the elasticity is stable (absolute
    value below 2) or APPROVED is among the bands, or when it exceeds 0.4
    with both; it is Low exactly when the probability is at most 0.6 with
    neither, or at most 0.4 without both. *)
Theorem calculate_confidence_table (w : WinRateAgent.Result)
    (e : ElasticityAgent.Result) (rr : RulesAgent.Result) :
  let p := WinRateAgent.win_probability w in
  let stable := py_abs (ElasticityAgent.r_price_elasticity e) < 2 in
  let approved := approved_in_str (RulesAgent.approval_bands rr) = true in
  let c := _calculate_confidence w e rr in
  (c = "High"%string \/ c = "Medium"%string \/ c = "Low"%string)
  /\ (c = "High"%string
      <-> (0.6 < p /\ (stable \/ approved)) \/ (0.4 < p /\ stable /\ approved))
  /\ (c = "Low"%string
      <-> (p <= 0.6 /\ ~ stable /\ ~ approved) \/ (p <= 0.4 /\ ~ (stable /\ approved))).
Proof.
  cbv zeta. rewrite calculate_confidence_cases. cbv zeta.
  set (p := WinRateAgent.win_probability w).
  set (a := py_abs (ElasticityAgent.r_price_elasticity e)).
  destruct (Qgtb p 0.6) eqn:E6;
    first [apply Qgtb_true in E6 | apply Qgtb_false in E6];
    destruct (Qgtb p 0.4) eqn:E4;
    first [apply Qgtb_true in E4 | apply Qgtb_false in E4];
    destruct (Qltb a 2.0) eqn:Es;
    first [apply Qltb_true in Es | apply Qltb_false in Es];
    destruct (approved_in_str _) eqn:Ea; cbn [orb andb];
    (split; [tauto |]);
    (split; split; intros H; try discriminate H;
     try (exfalso; lra); intuition (try discriminate; try lra)).
Qed.

(** For a non-negative quantity the returned elasticity is stable in the
    sense of the confidence score: its absolute value is below 2. *)
Lemma price_elasticity_stable (context : Context) :
  (0 <= default 10 (Ctx.quantity context))%Z ->
  py_abs (ElasticityAgent.r_price_elasticity (ElasticityAgent.execute context)) < 2.
Proof.
  intros Hq. unfold py_abs. apply Qabs_Qlt_condition.
  change (- (2) < py_round (ElasticityAgent.adjusted_elasticity
                              (ElasticityAgent.vars context)) 2 < 2).
  pose proof (adjusted_elasticity_lower context Hq) as Hlo.
  pose proof (adjusted_elasticity_upper context) as Hhi.
  apply (py_round_mono _ _ 2) in Hlo, Hhi.
  assert (E1 : py_round (-1.8) 2 == -1.8) by reflexivity.
  assert (E2 : py_round (-0.968) 2 == -0.97) by reflexivity.
  set (x := py_round (ElasticityAgent.adjusted_elasticity _) 2) in *.
  set (lo := py_round (-1.8) 2) in *. set (hi := py_round (-0.968) 2) in *.
  clearbody x lo hi. split; lra.
Qed.

(** X12: For a request with a non-negative quantity under bands that include
    APPROVED, the confidence of a recommendation is High exactly when the
    win probability at the target exceeds 0.4 and Medium otherwise; it is
    never Low. *)
Theorem recommendation_confidence (self : t) (req : Request) (r : Recommendation) :
  recommend_price self req = Ok r ->
  (0 <= quantity req)%Z ->
  exists sel,
    select_prices self req = Ok sel
    /\ (approved_in_str (RulesAgent.approval_bands (s_rules_result sel)) = true ->
        (confidence_score r = "High"%string <-> 0.4 < p_win_at_target r)
        /\ (confidence_score r = "Medium"%string <-> p_win_at_target r <= 0.4)
        /\ confidence_score r <> "Low"%string).
Proof.
  intros H Hq.
  apply recommend_price_result in H as (sel & fw & cogs & Hsel & _ & _ & Hp & _ & Hc).
  exists sel. split; [exact Hsel |]. intros Ha.
  assert (Hstable : Qltb (py_abs (ElasticityAgent.r_price_elasticity
                                    (ElasticityAgent.execute (final_context sel)))) 2.0
                    = true).
  { apply Qltb_true.
    assert (Hqf : Ctx.quantity (final_context sel) = Some (quantity req)).
    { apply select_prices_Ok in Hsel as (context0 & E0 & _ & Ectx & _).
      destruct (enrich_context_Ok self req)
        as (context0' & E0' & _ & _ & _ & _ & _ & Hqty & _).
      rewrite E0 in E0'. apply Ok_inj in E0'. subst context0'.
      unfold final_context. rewrite Ectx. exact Hqty. }
    pose proof (price_elasticity_stable (final_context sel)) as Hs.
    rewrite Hqf in Hs. specialize (Hs Hq).
    set (a := py_abs _) in *. clearbody a. lra. }
  rewrite Hc, Hp, calculate_confidence_cases. cbv zeta. rewrite Hstable, Ha.
  cbn [orb andb].
  set (p := WinRateAgent.win_probability fw).
  destruct (Qgtb p 0.6) eqn:E6;
    first [apply Qgtb_true in E6 | apply Qgtb_false in E6];
    destruct (Qgtb p 0.4) eqn:E4;
    first [apply Qgtb_true in E4 | apply Qgtb_false in E4];
    (split; [| split]); try discriminate;
    split; intros H; try discriminate H; try reflexivity; try lra.
Qed.

Lemma recommendation_confidence_witness :
  exists r,
    recommend_price Demo.orchestrator (Demo.request "SKU-001") = Ok r
    /\ confidence_score r = "High"%string.
Proof.
  destruct (recommend_price Demo.orchestrator (Demo.request "SKU-001"))
    as [r | msg] eqn:E; [| vm_compute in E; discriminate].
  destruct (recommendation_confidence Demo.orchestrator (Demo.request "SKU-001") r E)
    as (sel & Hsel & _); [simpl; lia |].
  exists r. split; [reflexivity |].
  vm_compute in E. apply Ok_inj in E. subst r. reflexivity.
Defined.

End Confidence.

(** ** What the boundary returns *)

Section BoundaryFurther.

Import Orchestrator.

(** On a Python price other than 0 the win-rate agent raises only if the
    model does. *)
Lemma execute_py_total (self : WinRateAgent.t) (context : Context) (p : Q) :
  Spec.usable (WinRateAgent.model self) ->
  Ctx.proposed_price context = Some (Py p) -> ~ p == 0 ->
  exists w, WinRateAgent.execute self context = Ok w.
Proof.
  intros [Hp Hf] Hc Hnz. unfold WinRateAgent.execute. rewrite Hc. cbv zeta.
  set (top := take 3 (WinRateAgent.sorted_desc
                        (zip WinRateAgent.feature_cols
                             (WinRateAgent.feature_importances_ (WinRateAgent.model self))))).
  assert (Ht : exists f fs, top = f :: fs).
  { destruct top as [| f fs] eqn:E; [| eauto]. exfalso.
    apply (f_equal length) in E. unfold top in E.
    rewrite length_take, length_sorted_desc, length_zip in E.
    destruct (WinRateAgent.feature_importances_ (WinRateAgent.model self));
      [congruence | simpl in E; lia]. }
  destruct Ht as (f & fs & ->).
  assert (Hd : exists d,
            WinRateAgent.discount_depth
              (default (default (Py 100) (Ctx.target_price context)) (Some (Py p)))
            = Ok d).
  { change (default (default (Py 100) (Ctx.target_price context)) (Some (Py p)))
      with (Py p).
    unfold WinRateAgent.discount_depth. cbn [num_val is_np].
    destruct (Qeq_bool (p * 1.2) 0) eqn:E; [| eexists; reflexivity].
    exfalso. apply Qeq_bool_iff in E. apply Hnz.
    apply Qmult_integral in E as [E | E]; [exact E |].
    vm_compute in E. discriminate E. }
  destruct Hd as [d ->]. rewrite bind_Ok_l.
  match goal with |- context [WinRateAgent.predict_proba (WinRateAgent.model self) ?X] =>
    destruct (Hp X) as [proba ->] end.
  rewrite bind_Ok_l. rewrite bind_Ok_l. eauto.
Qed.


Lemma sample_model_usable : Spec.usable Sample.model.
Proof.
  split.
  - intros X. simpl. eauto.
  - discriminate.
Qed.






End BoundaryFurther.

(** ** The demand curve *)

Section DemandCurveProps.

Import ElasticityAgent.

Lemma py_max2_mono_r (a x y : Q) : x <= y -> py_max2 a x <= py_max2 a y.
Proof.
  intros H.
  destruct (py_max2_spec a x) as [[Hx ->] | [Hx ->]];
  destruct (py_max2_spec a y) as [[Hy ->] | [Hy ->]]; lra.
Qed.

Lemma demand_curve_quantity (context : Context) (base price : Q) :
  let c := Ctx.set_proposed_price (Py price) (Ctx.set_current_price base context) in
  DemandCurve.quantity (DemandCurve.point context base price)
  = py_round (new_quantity (vars c)) 1
  /\ current_price (vars c) = base
  /\ proposed_price (vars c) = price
  /\ Ctx.quantity c = Ctx.quantity context
  /\ params_of c = params_of context.
Proof. cbv zeta. repeat split; reflexivity. Qed.

(** X16: The curve raises [IndexError] exactly on an empty price range;
    otherwise it has one point per price, in order, each with a quantity of
    at least one unit. *)
Theorem demand_curve_points (context : Context) (price_range : list Q) :
  (price_range = [] ->
     DemandCurve.get_demand_curve context price_range
     = Raise "list index out of range")
  /\ (price_range <> [] ->
      exists base curve,
        price_range !! (length price_range / 2)%nat = Some base
        /\ DemandCurve.get_demand_curve context price_range = Ok curve
        /\ length curve = length price_range
        /\ (forall (i : nat) p, price_range !! i = Some p ->
              curve !! i = Some (DemandCurve.point context base p))
        /\ (forall pt, pt ∈ curve -> 1 <= DemandCurve.quantity pt)).
Proof.
  split.
  - intros ->. reflexivity.
  - intros Hne. unfold DemandCurve.get_demand_curve.
    assert (Hlt : (length price_range / 2 < length price_range)%nat).
    { destruct price_range as [| x xs]; [congruence |].
      apply Nat.div_lt; simpl; lia. }
    destruct (lookup_lt_is_Some_2 _ _ Hlt) as [base Hb].
    exists base. eexists. rewrite Hb.
    split; [reflexivity |]. split; [reflexivity |].
    split; [apply length_map |]. split.
    + intros i p Hp.
      change (map (DemandCurve.point context base) price_range)
        with (DemandCurve.point context base <$> price_range).
      now rewrite list_lookup_fmap, Hp.
    + intros pt Hpt.
      change (map (DemandCurve.point context base) price_range)
        with (DemandCurve.point context base <$> price_range) in Hpt.
      apply list_elem_of_fmap in Hpt as (p & -> & _).
      apply new_quantity_at_least_one_rounded.
Qed.

Lemma demand_curve_new_quantity (context : Context) (base price : Q) :
  0 < base ->
  let c := Ctx.set_proposed_price (Py price) (Ctx.set_current_price base context) in
  new_quantity (vars c)
  = py_max2 1 (inject_Z (default 10%Z (Ctx.quantity context))
               * (1 + adjusted_elasticity (vars context) * ((price - base) / base))).
Proof.
  intros Hb. cbv zeta.
  set (c := Ctx.set_proposed_price (Py price) (Ctx.set_current_price base context)).
  assert (Ha : adjusted_elasticity (vars c) = adjusted_elasticity (vars context)).
  { rewrite !vars_adjusted_elasticity, !vars_volume_factor. reflexivity. }
  assert (Hc : current_price (vars c) = base) by reflexivity.
  assert (Hp : proposed_price (vars c) = price) by reflexivity.
  rewrite vars_new_quantity, vars_demand_change_pct, vars_price_change_pct, Ha, Hc, Hp.
  rewrite (proj2 (Qgtb_true base 0) Hb). reflexivity.
Qed.

(** X17: The curve slopes downward: with a positive base price and a
    non-negative quantity, a point at a higher price never has a larger
    quantity than a point at a lower price. *)
Theorem demand_curve_downward (context : Context) (price_range : list Q)
    (curve : list DemandCurve.Point) (base : Q) :
  DemandCurve.get_demand_curve context price_range = Ok curve ->
  price_range !! (length price_range / 2)%nat = Some base ->
  0 < base ->
  (0 <= default 10 (Ctx.quantity context))%Z ->
  forall (i j : nat) p p' pt pt',
    price_range !! i = Some p -> price_range !! j = Some p' ->
    curve !! i = Some pt -> curve !! j = Some pt' ->
    p <= p' ->
    DemandCurve.quantity pt' <= DemandCurve.quantity pt.
Proof.
  intros Hc Hb Hpos Hq i j p p' pt pt' Hp Hp' Hpt Hpt' Hle.
  unfold DemandCurve.get_demand_curve in Hc. rewrite Hb in Hc.
  apply Ok_inj in Hc. subst curve.
  change (map (DemandCurve.point context base) price_range)
    with (DemandCurve.point context base <$> price_range) in Hpt, Hpt'.
  rewrite list_lookup_fmap, Hp in Hpt. rewrite list_lookup_fmap, Hp' in Hpt'.
  apply (inj Some) in Hpt, Hpt'. subst pt pt'.
  destruct (demand_curve_quantity context base p) as (-> & _).
  destruct (demand_curve_quantity context base p') as (-> & _).
  apply py_round_mono.
  rewrite !(demand_curve_new_quantity context base _ Hpos).
  apply py_max2_mono_r.
  pose proof (adjusted_elasticity_upper context) as Ha.
  set (a := adjusted_elasticity (vars context)) in *.
  set (q := inject_Z (default 10%Z (Ctx.quantity context))).
  assert (Hq0 : 0 <= q).
  { unfold q. replace 0 with (inject_Z 0) by reflexivity. now rewrite <- Zle_Qle. }
  assert (Hd : (p - base) / base <= (p' - base) / base).
  { unfold Qdiv. apply Qmult_le_compat_r; [lra |].
    apply Qlt_le_weak, Qinv_lt_0_compat, Hpos. }
  set (x := (p - base) / base) in *. set (y := (p' - base) / base) in *.
  clearbody a q x y.
  assert (H1 : a * y <= a * x) by nra.
  set (u := a * y) in *. set (v := a * x) in *. clearbody u v. nra.
Qed.

Lemma demand_curve_downward_witness :
  exists curve pt pt',
    DemandCurve.get_demand_curve (Demo.pricing_context 10 100 100) [90; 100; 110]
    = Ok curve
    /\ curve !! 0%nat = Some pt /\ curve !! 2%nat = Some pt'
    /\ DemandCurve.quantity pt' <= DemandCurve.quantity pt.
Proof.
  eexists. eexists. eexists.
  split; [reflexivity |]. split; [reflexivity |]. split; [reflexivity |].
  apply (demand_curve_downward (Demo.pricing_context 10 100 100) [90; 100; 110]
           _ 100 eq_refl eq_refl) with (i := 0%nat) (j := 2%nat) (p := 90) (p' := 110);
    try reflexivity.
  - simpl. lia.
  - discriminate.
Defined.

End DemandCurveProps.

Section DemandCurveWitness.

Lemma demand_curve_points_witness :
  DemandCurve.get_demand_curve (Demo.pricing_context 10 100 100) []
  = Raise "list index out of range"
  /\ exists base curve,
       [90; 100; 110] !! (length [90; 100; 110] / 2)%nat = Some base
       /\ DemandCurve.get_demand_curve (Demo.pricing_context 10 100 100) [90; 100; 110]
          = Ok curve
       /\ length curve = 3%nat.
Proof.
  destruct (demand_curve_points (Demo.pricing_context 10 100 100) []) as [H0 _].
  destruct (demand_curve_points (Demo.pricing_context 10 100 100) [90; 100; 110])
    as [_ H1].
  split; [now apply H0 |].
  destruct H1 as (base & curve & Hb & Hc & Hl & _); [discriminate |].
  exists base, curve. repeat split; assumption.
Defined.

End DemandCurveWitness.

(** ** The legacy policy lookup *)

Section LegacyProps.

(** X18: The legacy lookup of the service and the rules agent read the same
    policy off the same table: margins, ceiling factor and, once the
    missing bands fall back, the bands. *)
Theorem legacy_policy_agrees (self : RulesAgent.t) (context : Context) :
  let region := default "EMEA"%string (Ctx.region context) in
  let family := default "Widgets"%string (Ctx.product_family context) in
  let legacy := Legacy.get_policy (RulesAgent.policy_df self) region family in
  let policy := RulesAgent.find_policy self context in
  RulesAgent.p_min_margin_pct policy == Legacy.min_margin_pct legacy
  /\ RulesAgent.p_ceiling_pct policy == Legacy.ceiling_pct legacy
  /\ RulesAgent.p_approval_bands policy
     = default ["APPROVED"; "REVIEW"; "REJECT"]%string
         (Legacy.approval_bands_json legacy).
Proof.
  cbv zeta. unfold Legacy.get_policy, RulesAgent.find_policy.
  destruct (filter _ (RulesAgent.policy_df self)) as [| row rows].
  - repeat split; reflexivity.
  - cbn [RulesAgent.p_min_margin_pct RulesAgent.p_ceiling_pct RulesAgent.p_approval_bands
         Legacy.min_margin_pct Legacy.ceiling_pct Legacy.approval_bands_json].
    repeat split; reflexivity.
Qed.

(** For a product with a cost row the legacy [get_cogs] reads the cost
    the enrichment reads. *)
Lemma legacy_cogs_found (o : Orchestrator.t) (req : Orchestrator.Request)
    (row : ProductRow.t) (crow : CogsRow.t) :
  Orchestrator.product_row o req = Some row ->
  Orchestrator.cogs_row o (ProductRow.product_id row) = Some crow ->
  Legacy.get_cogs (Orchestrator.cogs_df o) (ProductRow.product_id row)
  = Spec.enriched_cogs o req.
Proof.
  intros Hr Hc. unfold Spec.enriched_cogs. rewrite Hr, Hc.
  unfold Legacy.get_cogs. unfold Orchestrator.cogs_row in Hc.
  destruct (filter _ (Orchestrator.cogs_df o)) as [| r rs]; [discriminate |].
  simpl in Hc. now injection Hc as ->.
Qed.

End LegacyProps.

(** ** Features of the win-rate agent *)

Section Features.

Import WinRateAgent.

(** X19: No caller supplies a list price, so the discount depth carries no
    information: it is 1/6 at every price other than 0, and 0 at a NumPy
    price of 0; a Python price of 0 raises. *)
Theorem discount_depth_constant (x : num) :
  (~ num_val x == 0 -> exists d, discount_depth x = Ok d /\ d == 1 # 6)
  /\ (num_val x == 0 ->
      discount_depth x
      = if is_np x then Ok 0 else Raise "float division by zero").
Proof.
  unfold discount_depth. split.
  - intros Hnz.
    destruct (Qeq_bool (num_val x * 1.2) 0) eqn:E.
    + exfalso. apply Qeq_bool_iff in E. apply Hnz.
      apply Qmult_integral in E as [E | E]; [exact E |].
      vm_compute in E. discriminate E.
    + eexists. split; [reflexivity |].
      set (p := num_val x) in *. clearbody p.
      assert (Ed : (p * 1.2 - p) / (p * 1.2) == 1 # 6) by (field; exact Hnz).
      destruct (py_max2_spec 0 ((p * 1.2 - p) / (p * 1.2))) as [[_ ->] | [H ->]].
      * exact Ed.
      * exfalso. rewrite Ed in H. revert H. apply Qlt_not_le. reflexivity.
  - intros Hz.
    assert (E : Qeq_bool (num_val x * 1.2) 0 = true).
    { apply Qeq_bool_iff. rewrite Hz. reflexivity. }
    now rewrite E.
Qed.

Lemma discount_depth_constant_witness :
  exists d, discount_depth (Np 120) = Ok d /\ d == 1 # 6.
Proof.
  apply (discount_depth_constant (Np 120)). discriminate.
Defined.

End Features.

(** ** Scoring, enrichment and features, further *)

Section ScoreFurther.

Import Orchestrator.



(** X21: The enrichment has no default for industry and product id: each is
    present exactly when its row is found; every request key is copied. *)
Theorem enrichment_keys_without_default (self : t) (req : Request) :
  exists context,
    _enrich_context self req = Ok context
    /\ Ctx.industry context = CustomerRow.industry <$> customer_row self req
    /\ Ctx.product_id context = ProductRow.product_id <$> product_row self req
    /\ Ctx.sku context = Some (sku req)
    /\ Ctx.customer_id context = Some (customer_id req)
    /\ Ctx.quantity context = Some (quantity req)
    /\ Ctx.country context = Some (country req)
    /\ Ctx.channel context = Some (channel req)
    /\ Ctx.currency context = Some (currency req).
Proof.
  unfold _enrich_context.
  destruct (product_row self req) as [prow |];
    [destruct (cogs_row self (ProductRow.product_id prow)) as [crow |] |];
    destruct (customer_row self req) as [curow |];
    (eexists; split; [reflexivity | repeat split]).
Qed.

(** X22: In an enriched context the competitor price is 1.3 x cogs, so the
    price-versus-competitor feature repeats the margin feature:
    price_vs_competitor = (1 + margin_pct) / 1.3 whenever cogs > 0. *)
Theorem features_repeat_margin (self : WinRateAgent.t) (context : Context)
    (w : WinRateAgent.Result) (cogs : Q) :
  WinRateAgent.execute self context = Ok w ->
  Ctx.cogs context = Some cogs ->
  Ctx.competitor_price context = Some (cogs * 1.3) ->
  0 < cogs ->
  exists margin_pct discount_depth price_vs_competitor rest,
    WinRateAgent.model_features w
    = margin_pct :: discount_depth :: price_vs_competitor :: rest
    /\ length rest = 7%nat
    /\ price_vs_competitor == (1 + margin_pct) / 1.3.
Proof.
  unfold WinRateAgent.execute. intros H Hc Hk Hpos.
  rewrite Hc, Hk in H. cbv zeta in H.
  apply bind_Ok in H as (d & _ & H). cbv beta in H.
  apply bind_Ok in H as (proba & _ & H). cbv beta in H.
  apply bind_Ok in H as (top & _ & H). cbv beta in H.
  apply Ok_inj in H. rewrite <- H. cbn [WinRateAgent.model_features].
  do 4 eexists. split; [reflexivity |]. split; [reflexivity |].
  change (default 80 (Some cogs)) with cogs.
  change (default _ (Some (cogs * 1.3))) with (cogs * 1.3).
  rewrite (proj2 (Qgtb_true cogs 0) Hpos).
  assert (Hk3 : Qgtb (cogs * 1.3) 0 = true) by (apply Qgtb_true; lra).
  rewrite Hk3. field. lra.
Qed.

Lemma features_repeat_margin_witness :
  let context :=
    Demo.returned Ctx.empty
      (score_context Sample.orchestrator (Demo.request "SKU-001") 120) in
  exists w margin_pct discount_depth price_vs_competitor rest,
    WinRateAgent.execute (winrate_agent Sample.orchestrator) context = Ok w
    /\ WinRateAgent.model_features w
       = margin_pct :: discount_depth :: price_vs_competitor :: rest
    /\ price_vs_competitor == (1 + margin_pct) / 1.3.
Proof.
  cbv zeta.
  set (context := Demo.returned Ctx.empty
                    (score_context Sample.orchestrator (Demo.request "SKU-001") 120)).
  destruct (WinRateAgent.execute (winrate_agent Sample.orchestrator) context)
    as [w | msg] eqn:E; [| vm_compute in E; discriminate].
  destruct (features_repeat_margin (winrate_agent Sample.orchestrator) context w 80.0 E)
    as (m & d & k & rest & Hf & _ & Hk); [reflexivity | reflexivity | reflexivity |].
  exists w, m, d, k, rest. split; [reflexivity |]. split; assumption.
Defined.

End ScoreFurther.
